(** * cupbearer: abstraction training and stored-component loading

    A shallow embedding of
      - [abstractions/train_abstraction.py]  (the abstraction trainer),
      - [cupbearer/utils/scripts.py]         ([load_config]),
      - [cupbearer/detectors/config.py]      ([StoredDetector.build]),
      - [cupbearer/models/__init__.py]       ([StoredModel.build_model]),
      - [cupbearer/data/backdoor_data.py]    ([BackdoorData]),
    together with the properties the specification states about them.

    Conventions of the embedding:
      - Python exceptions are values of [PyError]; a computation that may
        raise returns a [result].
      - Floating-point scalars are idealised as real numbers ([R]); an
        array is a shape together with an index function.
      - A function under [@jax.jit] is called through the wrapper that the
        decorator puts in its place: the wrapper looks at the arguments
        before the body runs.
      - Code that logs, or that works on objects shared by reference, runs
        in the state-and-error monad [M] over an explicit world. *)

From Stdlib Require Import Reals Lra Lia ZArith.
From stdpp Require Import gmap strings list.

(** ** Exceptions and results *)

(** The Python exceptions that the embedded code can raise. [RuntimeError]
    is raised by the self-reference guard of [StoredDetector.build];
    [RecursionError] is what the interpreter raises when the call stack is
    exhausted; [ReferenceError] stands for following a reference that is
    not in the store, which no program below does. *)
Inductive PyError : Set :=
| AssertionError
| IndexError
| KeyError
| TypeError
| ValueError
| NameError
| AttributeError
| RuntimeError
| FileNotFoundError
| RecursionError
| StopIteration
| ZeroDivisionError
| ReferenceError.

#[global] Instance PyError_eq_dec : EqDecision PyError := ltac:(solve_decision).

Inductive result (A : Type) : Type :=
| Ok (a : A)
| Err (e : PyError).
Arguments Ok {A} a.
Arguments Err {A} e.

Definition rbind {A B} (m : result A) (k : A -> result B) : result B :=
  match m with
  | Ok a => k a
  | Err e => Err e
  end.

Notation "'let*' x ':=' m 'in' k" := (rbind m (fun x => k))
  (at level 10, x pattern, m at level 100, k at level 200).

(** [assert c] *)
Definition py_assert (c : bool) : result unit :=
  if c then Ok tt else Err AssertionError.

(** [xs[i]] on a Python list *)
Definition py_index {A} (xs : list A) (i : nat) : result A :=
  match xs !! i with
  | Some x => Ok x
  | None => Err IndexError
  end.

(** [next(iter(xs))] *)
Definition py_next_iter {A} (xs : list A) : result A :=
  match xs with
  | x :: _ => Ok x
  | [] => Err StopIteration
  end.

(** [zip] stops at the end of the shorter list. *)
Fixpoint py_zip {A B} (xs : list A) (ys : list B) : list (A * B) :=
  match xs, ys with
  | x :: xs', y :: ys' => (x, y) :: py_zip xs' ys'
  | _, _ => []
  end.

(** [range(lo, lo + n)] for a count [n] that may be negative. *)
Definition py_range_from (lo : Z) (n : Z) : list Z :=
  map (fun i => (lo + Z.of_nat i)%Z) (seq 0 (Z.to_nat n)).

(** ** Computations with effects

    [M W A]: a computation over a world [W] that returns an [A] or raises;
    what was written to the world before an exception stays written. *)

Definition M (W A : Type) : Type := W -> result A * W.

Definition m_ret {W A} (a : A) : M W A := fun w => (Ok a, w).

Definition m_bind {W A B} (m : M W A) (k : A -> M W B) : M W B :=
  fun w =>
    match m w with
    | (Ok a, w') => k a w'
    | (Err e, w') => (Err e, w')
    end.

Definition m_raise {W A} (e : PyError) : M W A := fun w => (Err e, w).

Definition m_lift {W A} (r : result A) : M W A := fun w => (r, w).

(** [try: m  except exc: handler] *)
Definition try_except {W A} (m : M W A) (exc : PyError) (handler : M W A) : M W A :=
  fun w =>
    match m w with
    | (Err e, w') => if decide (e = exc) then handler w' else (Err e, w')
    | r => r
    end.

Notation "'let!' x ':=' m 'in' k" := (m_bind m (fun x => k))
  (at level 10, x pattern, m at level 100, k at level 200).

(** ** Arrays *)

Module Arrays.
Local Open Scope R_scope.

(** A two-dimensional array (batch x features): its shape and its
    entries. Only the entries inside the shape are meaningful. *)
Record Array : Type := mkArray {
  nrows : nat;
  ncols : nat;
  entry : nat -> nat -> R
}.

(** A one-dimensional array, as produced by [sum(axis=-1)]. *)
Record Vector : Type := mkVector {
  vlen : nat;
  ventry : nat -> R
}.

Definition shape (x : Array) : nat * nat := (nrows x, ncols x).

Definition shape_eqb (s t : nat * nat) : bool :=
  (fst s =? fst t)%nat && (snd s =? snd t)%nat.

(** [rsum n f] is f 0 + ... + f (n-1). *)
Fixpoint rsum (n : nat) (f : nat -> R) : R :=
  match n with
  | O => 0
  | S k => rsum k f + f k
  end.

(** NumPy broadcasting of one dimension: equal sizes, or one of them 1. *)
Definition broadcast_dim (m n : nat) : option nat :=
  if (m =? n)%nat then Some m
  else if (m =? 1)%nat then Some n
  else if (n =? 1)%nat then Some m
  else None.

Definition bidx (dim i : nat) : nat := if (dim =? 1)%nat then O else i.

(** An elementwise binary operation with broadcasting; on operands whose
    shapes cannot be broadcast together jax raises [TypeError]. *)
Definition broadcast2 (op : R -> R -> R) (x y : Array) : result Array :=
  match broadcast_dim (nrows x) (nrows y), broadcast_dim (ncols x) (ncols y) with
  | Some r, Some c =>
      Ok (mkArray r c (fun i j =>
            op (entry x (bidx (nrows x) i) (bidx (ncols x) j))
               (entry y (bidx (nrows y) i) (bidx (ncols y) j))))
  | _, _ => Err TypeError
  end.

Definition array_sub : Array -> Array -> result Array := broadcast2 Rminus.
Definition array_mul : Array -> Array -> result Array := broadcast2 Rmult.

Definition array_map (f : R -> R) (x : Array) : Array :=
  mkArray (nrows x) (ncols x) (fun i j => f (entry x i j)).

(** The elementwise exponential, [jnp.exp(x)]. *)
Definition array_exp : Array -> Array := array_map exp.

(** The method calls [x.exp()] and [x.square()]. A jax array has methods
    [sum] and [mean], but none called [exp] or [square]: looking either
    name up on the array raises [AttributeError], whatever the array. *)
Definition exp_method (x : Array) : result Array := Err AttributeError.
Definition square_method (x : Array) : result Array := Err AttributeError.

(** [x.sum(axis=-1)] *)
Definition sum_last (x : Array) : Vector :=
  mkVector (nrows x) (fun i => rsum (ncols x) (entry x i)).

(** [v.mean()] on a vector and [x.mean()] on an array: the sum of all
    entries over their number. (On an empty array the library yields NaN;
    the properties below that depend on it assume a non-empty array.) *)
Definition vector_mean (v : Vector) : R :=
  rsum (vlen v) (ventry v) / INR (vlen v).

Definition array_mean (x : Array) : R :=
  rsum (nrows x) (fun i => rsum (ncols x) (entry x i)) / INR (nrows x * ncols x).

Definition const_array (r c : nat) (v : R) : Array := mkArray r c (fun _ _ => v).

End Arrays.

(** ** The abstraction trainer ([abstractions/train_abstraction.py]) *)

Module Trainer.
Import Arrays.
Local Open Scope R_scope.

(** [metrics] is a dict from names to scalars, kept in insertion order. *)
Definition Metrics : Type := list (string * R).

Fixpoint dict_get {V} (d : list (string * V)) (k : string) : result V :=
  match d with
  | [] => Err KeyError
  | (k', v) :: d' => if String.eqb k' k then Ok v else dict_get d' k
  end.

(** A dict that is returned through [jax.jit] is rebuilt from its leaves
    with its keys in sorted order. *)
Fixpoint insert_by_key {V} (kv : string * V) (d : list (string * V))
    : list (string * V) :=
  match d with
  | [] => [kv]
  | kv' :: d' =>
      if String.leb (fst kv) (fst kv') then kv :: d
      else kv' :: insert_by_key kv d'
  end.

Definition sorted_by_key {V} (d : list (string * V)) : list (string * V) :=
  fold_right insert_by_key [] d.

(** What the metrics sink and the log receive. *)
Inductive Event : Type :=
| ReportScalar (title series : string) (value : R) (iteration : Z)
| LogMetrics (epoch : Z) (train_loss train_accuracy test_loss test_accuracy : R).

Inductive MetricsLogger : Set :=
| DummyLogger
| TaskLogger.

(** A reference to a [TrainState] object in the store. *)
Abbreviation Ref := nat (only parsing).

Section WithModel.

(** The parts of the program that live in other libraries or modules:
    parameter trees, the optimizer, differentiation, the reference model. *)
Context {Params Grads OptState Images Labels RefParams Rng : Type}.

(** [state.apply_fn({"params": params}, activations)] returns
    [(abstractions, predicted_abstractions, predicted_logits)]. *)
Definition ApplyFn : Type :=
  Params -> list Array -> list Array * list Array * Array.

(** [forward_fn(images)] returns [(logits, activations)]. *)
Definition ForwardFn : Type := Images -> Array * list Array.

Definition Batch : Type := Images * Labels * Labels.

(** An optax gradient transformation, with [optax.apply_updates] folded
    into the update. *)
Record Optimizer : Type := mkOptimizer {
  opt_init : Params -> OptState;
  opt_update : Grads -> OptState -> Params -> Params * OptState
}.

(** [flax.training.train_state.TrainState] *)
Record TrainState : Type := mkTrainState {
  step : Z;
  apply_fn : ApplyFn;
  params : Params;
  tx : Optimizer;
  opt_state : OptState
}.

(** The gradient that [jax.value_and_grad] attaches to a successful
    evaluation of the loss. *)
Variable grad_of : (Params -> result (R * (R * R))) -> Params -> Grads.

(** *** The loss *)

(** [(abstraction - predicted_abstraction).square().mean()] *)
Definition pair_term (abstraction predicted_abstraction : Array) : result R :=
  let* diff := array_sub abstraction predicted_abstraction in
  let* squared := square_method diff in
  Ok (array_mean squared).

(** The loop of [loss_fn]:
    [for abstraction, predicted_abstraction in zip(abstractions[1:], predicted_abstractions):
         consistency_loss += (abstraction - predicted_abstraction).square().mean()] *)
Fixpoint consistency_loop (acc : R) (pairs : list (Array * Array)) : result R :=
  match pairs with
  | [] => Ok acc
  | (abstraction, predicted_abstraction) :: rest =>
      let* term := pair_term abstraction predicted_abstraction in
      consistency_loop (acc + term) rest
  end.

(** What the expression of the output loss does with the value of
    [logits.exp()]:
    [(exp_logits * (logits - predicted_logits)).sum(axis=-1).mean()] *)
Definition output_term (exp_logits logits predicted_logits : Array) : result R :=
  let* diff := array_sub logits predicted_logits in
  let* prod := array_mul exp_logits diff in
  Ok (vector_mean (sum_last prod)).

(** [loss_fn(params)], the closure of [apply_model] over [state],
    [logits] and [activations]. The two [isinstance(..., list)]
    assertions hold by typing, and so does the unpacking
    [b, d = abstractions[0].shape], every array here being
    two-dimensional. The class count 10 is the literal of the source. *)
Definition loss_fn (state : TrainState) (logits : Array) (activations : list Array)
    (params : Params) : result (R * (R * R)) :=
  let '(abstractions, predicted_abstractions, predicted_logits) :=
    apply_fn state params activations in
  let* _ := py_assert (length abstractions =? length predicted_abstractions)%nat in
  let* a0 := py_index abstractions 0 in
  let '(b, d) := shape a0 in
  let* p0 := py_index predicted_abstractions 0 in
  let* _ := py_assert (shape_eqb (shape p0) (b, d)) in
  let* _ := py_assert (shape_eqb (shape logits) (b, 10%nat)
                       && shape_eqb (b, 10%nat) (shape predicted_logits)) in
  (* Output loss (KL divergence between actual and predicted output);
     the receiver [logits.exp()] is evaluated first *)
  let* exp_logits := exp_method logits in
  let* output_loss := output_term exp_logits logits predicted_logits in
  (* Consistency loss; skip the first abstraction *)
  let* consistency_sum :=
    consistency_loop 0 (py_zip (tail abstractions) predicted_abstractions) in
  let consistency_loss := consistency_sum / INR (length predicted_abstractions) in
  let loss := output_loss + consistency_loss in
  Ok (loss, (output_loss, consistency_loss)).

(** [jax.value_and_grad(loss_fn, has_aux=True)(params)]: the loss is
    evaluated first; its exceptions propagate, and only a successful
    evaluation is differentiated. *)
Definition value_and_grad (f : Params -> result (R * (R * R))) (p : Params)
    : result ((R * (R * R)) * Grads) :=
  let* v := f p in
  Ok (v, grad_of f p).

(** *** Train states as objects *)

(** A [TrainState] is an object: variables hold references ([Ref]) to
    it. The world of the trainer is the store of these objects and what
    has been sent to the metrics sink and the log. *)

Record World : Type := mkWorld {
  heap : list TrainState;
  sink : list Event
}.

Definition deref (r : Ref) : M World TrainState :=
  fun w =>
    match heap w !! r with
    | Some st => (Ok st, w)
    | None => (Err ReferenceError, w)
    end.

Definition alloc (st : TrainState) : M World Ref :=
  fun w => (Ok (length (heap w)), mkWorld (heap w ++ [st]) (sink w)).

Definition emit (e : Event) : M World unit :=
  fun w => (Ok tt, mkWorld (heap w) (sink w ++ [e])).

(** [metrics_logger.report_scalar(title, series, value, iteration)];
    [utils.DummyLogger] drops what it is given. *)
Definition report_scalar (lg : MetricsLogger) (title series : string)
    (value : R) (iteration : Z) : M World unit :=
  match lg with
  | DummyLogger => m_ret tt
  | TaskLogger => emit (ReportScalar title series value iteration)
  end.

(** *** [apply_model] and [update_model] *)

(** The body of [apply_model], the function that the decorator wraps. *)
Definition apply_model_body (state : Ref) (batch : Batch) (forward_fn : ForwardFn)
    : M World (Grads * Metrics) :=
  let '(images, labels, backdoored) := batch in
  let '(logits, activations) := forward_fn images in
  let! st := deref state in
  let! ((loss, (output_loss, consistency_loss)), grads) :=
    m_lift (value_and_grad (loss_fn st logits activations) (params st)) in
  let metrics := [("loss"%string, loss);
                  ("output_loss"%string, output_loss);
                  ("consistency_loss"%string, consistency_loss)] in
  m_ret (grads, metrics).

(** Modelled from the spec: [TrainState.apply_gradients] of flax, which is
    not under src/. It applies one optimizer step and returns a new
    [TrainState] with an incremented step counter; its input is not
    changed. *)
Definition apply_gradients (st : TrainState) (grads : Grads) : TrainState :=
  let '(new_params, new_opt_state) := opt_update (tx st) grads (opt_state st) (params st) in
  mkTrainState (step st + 1) (apply_fn st) new_params (tx st) new_opt_state.

(** [update_model] is under [@jax.jit] too; its two arguments, a train
    state and a tree of gradients, are containers of arrays, which the
    wrapper accepts. *)
Definition update_model (state : Ref) (grads : Grads) : M World Ref :=
  let! st := deref state in
  alloc (apply_gradients st grads).

(** A positional argument of a call of [apply_model]. *)
Inductive PyValue : Type :=
| VState (r : Ref)
| VBatch (b : Batch)
| VForward (f : ForwardFn).

(** What [jax.jit] accepts as an argument: arrays and containers of
    arrays. A train state and a batch are such containers; a Python
    function is not. *)
Definition is_jax_type (v : PyValue) : bool :=
  match v with
  | VState _ => true
  | VBatch _ => true
  | VForward _ => false
  end.

(** The binding of positional arguments to the three parameters [state],
    [batch], [forward_fn], all required: a call with fewer or more
    arguments raises [TypeError] before the body runs. (The program passes
    a state, a batch and a function in this order whenever it passes three
    arguments.) *)
Definition bind_apply_model (args : list PyValue) : M World (Grads * Metrics) :=
  match args with
  | [VState state; VBatch batch; VForward forward_fn] =>
      apply_model_body state batch forward_fn
  | _ => m_raise TypeError
  end.

(** A call of the name [apply_model], which the decorator has bound to
    the wrapper of [jax.jit]. The wrapper raises [TypeError] when an
    argument is not of a type it accepts, without running the body;
    otherwise it runs the body and hands back its result, the metrics
    dict with its keys sorted. *)
Definition call_apply_model (args : list PyValue) : M World (Grads * Metrics) :=
  if forallb is_jax_type args then
    let! (grads, metrics) := bind_apply_model args in
    m_ret (grads, sorted_by_key metrics)
  else m_raise TypeError.

(** [apply_model(state, batch, forward_fn)] *)
Definition apply_model (state : Ref) (batch : Batch) (forward_fn : ForwardFn)
    : M World (Grads * Metrics) :=
  call_apply_model [VState state; VBatch batch; VForward forward_fn].

(** *** [train_epoch] *)

(** [torch.utils.data.DataLoader]: the size of its dataset, its batch
    size, and the batches it yields in one pass. *)
Record DataLoader : Type := mkDataLoader {
  dataset_len : nat;
  loader_batch_size : nat;
  batches : list Batch
}.

(** [epoch_metrics[k].append(v)] on a [defaultdict(list)] *)
Fixpoint dd_append (d : list (string * list R)) (k : string) (v : R)
    : list (string * list R) :=
  match d with
  | [] => [(k, [v])]
  | (k', vs) :: d' =>
      if String.eqb k' k then (k', vs ++ [v]) :: d'
      else (k', vs) :: dd_append d' k v
  end.

(** [np.mean(v)] on a list *)
Definition np_mean (vs : list R) : R :=
  fold_right Rplus 0 vs / INR (length vs).

(** [for k, v in metrics.items(): ...] of [train_epoch]; [iteration] is
    [int(state.step)] of the updated state. *)
Fixpoint record_metrics (lg : MetricsLogger) (iteration : Z) (items : Metrics)
    (epoch_metrics : list (string * list R)) : M World (list (string * list R)) :=
  match items with
  | [] => m_ret epoch_metrics
  | (k, v) :: rest =>
      let epoch_metrics := dd_append epoch_metrics k v in
      let! _ := report_scalar lg "Training" k v iteration in
      record_metrics lg iteration rest epoch_metrics
  end.

(** [for batch in train_loader: ...] of [train_epoch] *)
Fixpoint train_batches (lg : MetricsLogger) (forward_fn : ForwardFn)
    (bs : list Batch) (state : Ref) (epoch_metrics : list (string * list R))
    : M World (Ref * list (string * list R)) :=
  match bs with
  | [] => m_ret (state, epoch_metrics)
  | batch :: rest =>
      let! (grads, metrics) := apply_model state batch forward_fn in
      let! state := update_model state grads in
      let! st := deref state in
      let! epoch_metrics := record_metrics lg (step st) metrics epoch_metrics in
      train_batches lg forward_fn rest state epoch_metrics
  end.

Definition train_epoch (state : Ref) (train_loader : DataLoader) (rng : Rng)
    (metrics_logger : MetricsLogger) (forward_fn : ForwardFn)
    : M World (Ref * Metrics) :=
  let train_ds_size := dataset_len train_loader in
  let! steps_per_epoch :=
    if (loader_batch_size train_loader =? 0)%nat then m_raise ZeroDivisionError
    else m_ret (train_ds_size / loader_batch_size train_loader)%nat in
  let! (state, epoch_metrics) :=
    train_batches metrics_logger forward_fn (batches train_loader) state [] in
  let train_metrics := map (fun kv => (fst kv, np_mean (snd kv))) epoch_metrics in
  m_ret (state, train_metrics).

(** *** [create_train_state] and [train_and_evaluate] *)

(** The command-line configuration of [parse_args]. *)
Record Config : Type := mkConfig {
  num_epochs : Z;
  batch_size : Z;
  learning_rate : R;
  momentum : R;
  abstract_dim : Z;
  model_path : string;
  debug : bool;
  no_clearml : bool;
  workdir : string
}.

(** The collaborators of the driver: the abstraction model of
    [abstractions.abstraction] (its [init] on the three dummy activations,
    and its [apply]), [optax.sgd], [data.get_data_loaders], the random
    keys of jax, [utils.load] and the [apply] of [train_mnist.MLP] with
    [return_activations=True]. *)
Variable abstraction_init : Z -> nat -> Rng -> Params.
Variable abstraction_apply : Z -> nat -> ApplyFn.
Variable sgd : R -> R -> Optimizer.
Variable get_data_loaders : Z -> DataLoader * DataLoader.
Variable PRNGKey : Z -> Rng.
Variable split : Rng -> Rng * Rng.
Variable load : string -> result RefParams.
Variable mlp_apply : RefParams -> ForwardFn.

Definition create_train_state (rng : Rng) (config : Config) : M World Ref :=
  let params := abstraction_init (abstract_dim config) 10 rng in
  let tx := sgd (learning_rate config) (momentum config) in
  (* TrainState.create: step 0, opt_state = tx.init(params) *)
  alloc (mkTrainState 0 (abstraction_apply (abstract_dim config) 10) params tx
           (opt_init tx params)).

(** The body of [for epoch in range(1, config.num_epochs + 1)]. The
    evaluation call is [apply_model(state, test_batch)], with two
    arguments. *)
Fixpoint epoch_loop (train_loader test_loader : DataLoader)
    (metrics_logger : MetricsLogger) (forward_fn : ForwardFn)
    (epochs : list Z) (rng : Rng) (state : Ref) : M World Ref :=
  match epochs with
  | [] => m_ret state
  | epoch :: rest =>
      let '(rng, input_rng) := split rng in
      let! st := deref state in
      let! _ := report_scalar metrics_logger "epoch" "epoch" (IZR epoch) (step st) in
      let! (state, train_metrics) :=
        train_epoch state train_loader input_rng metrics_logger forward_fn in
      let! test_batch := m_lift (py_next_iter (batches test_loader)) in
      let! (_, test_metrics) :=
        call_apply_model [VState state; VBatch test_batch] in
      let! train_loss := m_lift (dict_get train_metrics "loss") in
      let! train_accuracy := m_lift (dict_get train_metrics "accuracy") in
      let! test_loss := m_lift (dict_get test_metrics "loss") in
      let! test_accuracy := m_lift (dict_get test_metrics "accuracy") in
      let! _ := emit (LogMetrics epoch train_loss (train_accuracy * 100)
                        test_loss (test_accuracy * 100)) in
      epoch_loop train_loader test_loader metrics_logger forward_fn rest rng state
  end.

Definition train_and_evaluate (config : Config) : M World Ref :=
  (* [jax_config] is not bound anywhere in the module *)
  let! no_clearml :=
    if debug config then m_raise NameError else m_ret (no_clearml config) in
  let metrics_logger := if no_clearml then DummyLogger else TaskLogger in
  let '(train_loader, test_loader) := get_data_loaders (batch_size config) in
  let rng := PRNGKey 0 in
  let '(rng, init_rng) := split rng in
  let! state := create_train_state init_rng config in
  let! params := m_lift (load (model_path config)) in
  let forward_fn := mlp_apply params in
  epoch_loop train_loader test_loader metrics_logger forward_fn
    (py_range_from 1 (num_epochs config)) rng state.

(** *** What a computation does to the log *)

Definition is_log_metrics (e : Event) : bool :=
  match e with
  | LogMetrics _ _ _ _ _ => true
  | ReportScalar _ _ _ _ => false
  end.

(** The epoch lines written to the log so far. *)
Definition metrics_logged (w : World) : list Event :=
  filter (fun e => is_log_metrics e = true) (sink w).

(** [quiet m]: [m] writes no epoch line. [fails m]: [m] raises from every
    world. *)
Definition quiet {A} (m : M World A) : Prop :=
  forall w, metrics_logged (snd (m w)) = metrics_logged w.

Definition fails {A} (m : M World A) : Prop :=
  forall w, exists e, fst (m w) = Err e.

End WithModel.
End Trainer.

(** ** Stored components
    ([cupbearer/utils/scripts.py], [cupbearer/detectors/config.py],
     [cupbearer/models/__init__.py]) *)

Module Stored.

(** A path, in normalised form: two paths are equal when their strings
    are. *)
Definition Path : Set := string.

(** [path / name] *)
Definition path_join (p : Path) (name : string) : Path :=
  (p +:+ "/" +:+ name)%string.

(** The model configs of [MODELS]. *)
Inductive ModelConfig : Set :=
| StoredModel (path : Path)
| MLP (output_dim : Z) (hidden_dims : list Z)
| CNN (output_dim : Z) (channels dense_dims : list Z).

(** [.computations]: what [mlp] and [cnn] describe, wrapped by [Model]. *)
Inductive Computation : Set :=
| mlp (output_dim : Z) (hidden_dims : list Z)
| cnn (output_dim : Z) (channels dense_dims : list Z).

Inductive Model : Set :=
| mkModel (c : Computation).

(** What the logger receives. *)
Inductive LogRecord : Set :=
| LogDebug (name : string) (path : Path)
| LogWarning (path : Path).

Definition is_warning (r : LogRecord) : bool :=
  match r with
  | LogWarning _ => true
  | LogDebug _ _ => false
  end.

Definition count_warnings (log : list LogRecord) : nat :=
  length (filter (fun r => is_warning r = true) log).

Definition logger_debug (name : string) (path : Path) : M (list LogRecord) unit :=
  fun log => (Ok tt, log ++ [LogDebug name path]).

Definition logger_warning (path : Path) : M (list LogRecord) unit :=
  fun log => (Ok tt, log ++ [LogWarning path]).

Section WithDetectors.

(** The detector variants other than [StoredDetector] are defined
    elsewhere: [DetectorSpec] is the type of their configs, [Detector] of
    the objects they build, [Weights] of what a weights file holds. *)
Context {DetectorSpec Detector Weights HookedModel : Type}.

Inductive DetectorConfig : Type :=
| StoredDetector (path : Path)
| ConcreteDetector (c : DetectorSpec).

(** A value found under an attribute of a loaded config. *)
Inductive CfgValue : Type :=
| CfgDetector (c : DetectorConfig)
| CfgModel (c : ModelConfig)
| CfgOther.

(** The files under the run directories: [config.yaml] files, as the
    attributes of the [ScriptConfig] they deserialize to, and weights
    files. *)
Record Disk : Type := mkDisk {
  config_files : gmap Path (gmap string CfgValue);
  weight_files : gmap Path Weights
}.

Variable disk : Disk.

(** [isinstance(v, DetectorConfig)] and [isinstance(v, ModelConfig)],
    each with the value at its class when it holds. *)
Definition as_detector_config (v : CfgValue) : option DetectorConfig :=
  match v with
  | CfgDetector c => Some c
  | _ => None
  end.

Definition as_model_config (v : CfgValue) : option ModelConfig :=
  match v with
  | CfgModel c => Some c
  | _ => None
  end.

(** [load_config(path, name, expected_type)] for a given [name]; the
    branch [name is None] is not taken by the callers below. *)
Definition load_config {T} (path : Path) (name : string)
    (expected_type : CfgValue -> option T) : M (list LogRecord) T :=
  let! _ := logger_debug name path in
  match config_files disk !! path_join path "config.yaml" with
  | None => m_raise FileNotFoundError
  | Some cfg =>
      match cfg !! name with
      | None => m_raise ValueError
      | Some sub_cfg =>
          match expected_type sub_cfg with
          | None => m_raise ValueError
          | Some c => m_ret c
          end
      end
  end.

(** [build] of the detector variants defined elsewhere. *)
Variable build_concrete :
  DetectorSpec -> HookedModel -> option Path -> M (list LogRecord) Detector.

(** How a detector takes the content of a weights file. *)
Variable restore : Detector -> Weights -> Detector.

(** Modelled from the spec: [AnomalyDetector.load_weights], which is not
    under src/. It restores the learned parameters from disk and fails
    with a not-found signal when the file is absent. *)
Definition load_weights (detector : Detector) (path : Path) : M (list LogRecord) Detector :=
  match weight_files disk !! path with
  | Some w => m_ret (restore detector w)
  | None => m_raise FileNotFoundError
  end.

Definition is_stored_at (cfg : DetectorConfig) (path : Path) : bool :=
  match cfg with
  | StoredDetector p => bool_decide (p = path)
  | ConcreteDetector _ => false
  end.

(** [DetectorConfig.build], dispatched on the variant; the body of the
    first case is [StoredDetector.build]. [fuel] is the depth of calls
    the interpreter still allows. *)
Fixpoint build (fuel : nat) (self : DetectorConfig) (model : HookedModel)
    (save_dir : option Path) : M (list LogRecord) Detector :=
  match fuel with
  | O => m_raise RecursionError
  | S fuel' =>
      match self with
      | StoredDetector self_path =>
          let! detector_cfg := load_config self_path "detector" as_detector_config in
          if is_stored_at detector_cfg self_path then m_raise RuntimeError
          else
            let! detector := build fuel' detector_cfg model save_dir in
            let! detector :=
              try_except (load_weights detector (path_join self_path "detector"))
                FileNotFoundError
                (let! _ := logger_warning self_path in m_ret detector) in
            m_ret detector
      | ConcreteDetector c => build_concrete c model save_dir
      end
  end.

(** [ModelConfig.build_model], dispatched on the variant; the body of the
    first case is [StoredModel.build_model], where [self.get_path()] is
    the path of the stored model. *)
Fixpoint build_model (fuel : nat) (self : ModelConfig) : M (list LogRecord) Model :=
  match fuel with
  | O => m_raise RecursionError
  | S fuel' =>
      match self with
      | StoredModel path =>
          let! model_cfg := load_config path "model" as_model_config in
          build_model fuel' model_cfg
      | MLP output_dim hidden_dims => m_ret (mkModel (mlp output_dim hidden_dims))
      | CNN output_dim channels dense_dims =>
          m_ret (mkModel (cnn output_dim channels dense_dims))
      end
  end.

End WithDetectors.
End Stored.

(** ** Backdoored datasets ([cupbearer/data/backdoor_data.py]) *)

Module Data.

(** A reference to a list object in the store. *)
Abbreviation ListRef := nat (only parsing).

Section WithTransforms.

(** [Transform] is defined elsewhere; a [Backdoor] is a [Transform]. *)
Context {Transform : Type}.

(** Python lists are objects: a field holds a reference to a list, and
    [+=] changes the list it is applied to in place. The world is the
    store of the list objects. *)
Abbreviation Lists := (list (list Transform)).

Definition new_list : M Lists ListRef :=
  fun s => (Ok (length s), s ++ [[]]).

Definition read_list (r : ListRef) : M Lists (list Transform) :=
  fun s =>
    match s !! r with
    | Some l => (Ok l, s)
    | None => (Err ReferenceError, s)
    end.

(** [target += source]: the elements of [source] are appended to the
    object [target]. *)
Definition extend_list (target source : ListRef) : M Lists unit :=
  fun s =>
    match s !! target, s !! source with
    | Some l, Some l' => (Ok tt, <[target := l ++ l']> s)
    | _, _ => (Err ReferenceError, s)
    end.

(** [target += [x]] *)
Definition append_item (target : ListRef) (x : Transform) : M Lists unit :=
  fun s =>
    match s !! target with
    | Some l => (Ok tt, <[target := l ++ [x]]> s)
    | None => (Err ReferenceError, s)
    end.

(** A dataset config. [PlainDataset] stands for the variants defined
    elsewhere: whether the instance has a [no_augmentation] attribute and
    its value, whether the instance accepts an assignment to it (an
    instance that does not raises [AttributeError]), and its transforms.
    [BackdoorData] is a plain dataclass with the two inherited fields and
    its own [original] and [backdoor]. *)
Inductive DatasetConfig : Type :=
| PlainDataset (no_augmentation : option bool) (assignable : bool)
    (transforms : ListRef)
| BackdoorData (no_augmentation : bool) (transforms : ListRef)
    (original : DatasetConfig) (backdoor : Transform).

(** [cfg.no_augmentation], when the attribute exists *)
Definition get_no_augmentation (cfg : DatasetConfig) : option bool :=
  match cfg with
  | PlainDataset na _ _ => na
  | BackdoorData na _ _ _ => Some na
  end.

(** [cfg.no_augmentation = v] *)
Definition set_no_augmentation (cfg : DatasetConfig) (v : bool) : result DatasetConfig :=
  match cfg with
  | PlainDataset na assignable ts =>
      if assignable then Ok (PlainDataset (Some v) assignable ts)
      else Err AttributeError
  | BackdoorData _ ts original backdoor => Ok (BackdoorData v ts original backdoor)
  end.

(** Whether [cfg.no_augmentation = v] is accepted. *)
Definition accepts_assignment (cfg : DatasetConfig) : bool :=
  match cfg with
  | PlainDataset _ assignable _ => assignable
  | BackdoorData _ _ _ _ => true
  end.

(** [super().__post_init__], when the base class has one. *)
Variable base_post_init : option (DatasetConfig -> DatasetConfig).

(** [if hasattr(super(), "__post_init__"): super().__post_init__()] *)
Definition run_base_post_init (self : DatasetConfig) : DatasetConfig :=
  match base_post_init with
  | Some f => f self
  | None => self
  end.

(** [BackdoorData.__post_init__], on the node [self] *)
Definition post_init (self : DatasetConfig) : DatasetConfig :=
  let self := run_base_post_init self in
  match self with
  | BackdoorData no_augmentation ts original backdoor =>
      if no_augmentation then
        match set_no_augmentation original no_augmentation with
        | Ok original' => BackdoorData no_augmentation ts original' backdoor
        | Err _ => self   (* except AttributeError: pass *)
        end
      else self
  | PlainDataset _ _ _ => self
  end.

(** The constructor that the dataclass generates: it stores the fields
    and calls [__post_init__]. *)
Definition make_BackdoorData (no_augmentation : bool) (transforms : ListRef)
    (original : DatasetConfig) (backdoor : Transform) : DatasetConfig :=
  post_init (BackdoorData no_augmentation transforms original backdoor).

(** Modelled from the spec: [DatasetConfig.get_transforms], which is not
    under src/. It returns the node's own stored transforms; here it
    hands out the very list object the field holds. *)
Definition base_get_transforms (transforms : ListRef) : M Lists ListRef :=
  m_ret transforms.

(** [cfg.get_transforms()], dispatched on the variant; the body of the
    second case is [BackdoorData.get_transforms]. *)
Fixpoint get_transforms (self : DatasetConfig) : M Lists ListRef :=
  match self with
  | PlainDataset _ _ ts => base_get_transforms ts
  | BackdoorData _ ts original backdoor =>
      let! transforms := new_list in
      let! from_original := get_transforms original in
      let! _ := extend_list transforms from_original in
      let! inherited := base_get_transforms ts in
      let! _ := extend_list transforms inherited in
      let! _ := append_item transforms backdoor in
      m_ret transforms
  end.

(** The config as it is written to [config.yaml]: the field values, with
    the lists by content. *)
Inductive Saved : Type :=
| SavedPlain (no_augmentation : option bool) (assignable : bool)
    (transforms : list Transform)
| SavedBackdoorData (no_augmentation : bool) (transforms : list Transform)
    (original : Saved) (backdoor : Transform).

(** Modelled from the spec: saving and loading a config, which are not
    under src/. Saving writes the field values of every node; loading
    reconstructs the same variants with the same field values, through
    their constructors. *)
Fixpoint save (cfg : DatasetConfig) : M Lists Saved :=
  match cfg with
  | PlainDataset na assignable ts =>
      let! l := read_list ts in
      m_ret (SavedPlain na assignable l)
  | BackdoorData na ts original backdoor =>
      let! l := read_list ts in
      let! o := save original in
      m_ret (SavedBackdoorData na l o backdoor)
  end.

Definition store_list (l : list Transform) : M Lists ListRef :=
  fun s => (Ok (length s), s ++ [l]).

Fixpoint reload (doc : Saved) : M Lists DatasetConfig :=
  match doc with
  | SavedPlain na assignable l =>
      let! ts := store_list l in
      m_ret (PlainDataset na assignable ts)
  | SavedBackdoorData na l o backdoor =>
      let! ts := store_list l in
      let! original := reload o in
      m_ret (make_BackdoorData na ts original backdoor)
  end.

(** The transforms of a config by content: what [get_transforms] is
    meant to produce. *)
Fixpoint transforms_of (s : Lists) (cfg : DatasetConfig) : list Transform :=
  match cfg with
  | PlainDataset _ _ ts => default [] (s !! ts)
  | BackdoorData _ ts original backdoor =>
      transforms_of s original ++ default [] (s !! ts) ++ [backdoor]
  end.

(** The same for a saved config. *)
Fixpoint saved_transforms (doc : Saved) : list Transform :=
  match doc with
  | SavedPlain _ _ l => l
  | SavedBackdoorData _ l o backdoor => saved_transforms o ++ l ++ [backdoor]
  end.

(** Every list reference of a config is in the store. *)
Fixpoint refs_valid (s : Lists) (cfg : DatasetConfig) : Prop :=
  match cfg with
  | PlainDataset _ _ ts => ts < length s
  | BackdoorData _ ts original _ => ts < length s /\ refs_valid s original
  end.

(** Two stores that hold the same lists at the references below [n]. *)
Definition agree_below (n : nat) (s s' : Lists) : Prop :=
  forall i, i < n -> s' !! i = s !! i.

(** What the base class does after initialization leaves the transforms,
    the original and the backdoor of a node alone. *)
Definition base_keeps_transforms : Prop :=
  forall f, base_post_init = Some f ->
  forall na ts o b, exists na', f (BackdoorData na ts o b) = BackdoorData na' ts o b.

End WithTransforms.
End Data.

(** ** The specification's formulas *)

Module Spec.
Import Arrays.
Local Open Scope R_scope.

(** The output term in the specification's words: the sum over classes of
    [exp(logits) * (logits - predicted_logits)], averaged over the batch. *)
Definition spec_output_loss (logits predicted_logits : Array) : R :=
  rsum (nrows logits) (fun i =>
    rsum (ncols logits) (fun j =>
      exp (entry logits i j) * (entry logits i j - entry predicted_logits i j)))
  / INR (nrows logits).

End Spec.

(** ** Concrete inputs *)

Module Examples.
Import Arrays Trainer.
Local Open Scope R_scope.

Definition unit_optimizer : @Optimizer unit unit unit :=
  mkOptimizer (fun _ => tt) (fun _ _ _ => (tt, tt)).

(** A train state whose predictor returns the given layers and logits. *)
Definition fixed_state (abstractions predicted_abstractions : list Array)
    (predicted_logits : Array) : @TrainState unit unit unit :=
  mkTrainState 3 (fun _ _ => (abstractions, predicted_abstractions, predicted_logits))
    tt unit_optimizer tt.

Definition fixed_forward (logits : Array) : @ForwardFn unit :=
  fun _ => (logits, []).

Definition unit_grad : (unit -> result (R * (R * R))) -> unit -> unit :=
  fun _ _ => tt.

Definition unit_batch : @Batch unit unit := (tt, tt, tt).

(** Three reference layers 0, 1, 1 and three predicted layers 0, 0, 0,
    each of shape (1, 1): the two squared-error terms are both 1. *)
Definition three_layers : list Array :=
  [const_array 1 1 0; const_array 1 1 1; const_array 1 1 1].
Definition three_predictions : list Array :=
  [const_array 1 1 0; const_array 1 1 0; const_array 1 1 0].

Definition zero_logits : Array := const_array 1 10 0.
Definition one_logits : Array := const_array 1 10 1.

Definition three_layer_state : @TrainState unit unit unit :=
  fixed_state three_layers three_predictions zero_logits.

Definition one_state_world (st : @TrainState unit unit unit) : @World unit unit unit :=
  mkWorld [st] [].

(** The call [apply_model(state, batch, forward_fn)] on the three-layer
    state, reference logits all 0. *)
Definition three_layer_run : result (unit * Metrics) * @World unit unit unit :=
  apply_model unit_grad 0%nat unit_batch (fixed_forward zero_logits)
    (one_state_world three_layer_state).

(** One layer each; reference logits all 0, predicted logits all 1. *)
Definition one_layer : list Array := [const_array 1 1 0].

Definition divergent_state : @TrainState unit unit unit :=
  fixed_state one_layer one_layer one_logits.

Definition divergent_run : result (unit * Metrics) * @World unit unit unit :=
  apply_model unit_grad 0%nat unit_batch (fixed_forward zero_logits)
    (one_state_world divergent_state).

(** Three reference layers against two predicted layers. *)
Definition mismatched_state : @TrainState unit unit unit :=
  fixed_state three_layers [const_array 1 1 0; const_array 1 1 0] zero_logits.

(** No layers at all, and reference logits of shape (1, 3). *)
Definition no_layer_state : @TrainState unit unit unit :=
  fixed_state [] [] zero_logits.

Definition narrow_logits : Array := const_array 1 3 0.

(** A one-epoch run: an empty training loader, one held-out batch. *)
Definition one_epoch_config : Config :=
  mkConfig 1 128 (1 / 10) (9 / 10) 256 "model" false false "logs".

Definition small_loaders : Z -> @DataLoader unit unit * @DataLoader unit unit :=
  fun _ => (mkDataLoader 0 128 [], mkDataLoader 1 128 [unit_batch]).

Definition one_epoch_run : result Ref * @World unit unit unit :=
  train_and_evaluate (RefParams := unit) (Rng := unit) unit_grad
    (fun _ _ _ => tt)
    (fun _ _ _ _ => (one_layer, one_layer, zero_logits))
    (fun _ _ => unit_optimizer)
    small_loaders
    (fun _ => tt) (fun _ => (tt, tt)) (fun _ => Ok tt)
    (fun _ => fixed_forward zero_logits)
    one_epoch_config (mkWorld [] []).

Import Stored.

(** A run directory whose config holds a stored detector and a stored
    model that both point back at the directory. *)
Definition self_attrs : gmap string (@CfgValue unit) :=
  {[ "detector"%string := CfgDetector (StoredDetector "run");
     "model"%string := CfgModel (StoredModel "run") ]}.

Definition self_disk : @Disk unit nat :=
  mkDisk {[ path_join "run" "config.yaml" := self_attrs ]} ∅.

(** A run directory with a detector config and no weights file. *)
Definition bare_attrs : gmap string (@CfgValue unit) :=
  {[ "detector"%string := CfgDetector (ConcreteDetector tt) ]}.

Definition bare_disk : @Disk unit nat :=
  mkDisk {[ path_join "run" "config.yaml" := bare_attrs ]} ∅.

(** A stored detector under [outer] whose config holds a stored detector
    under [inner], whose config holds a detector config; first with no
    weights file at all, then with one under [inner] only. *)
Definition nested_attrs : gmap string (@CfgValue unit) :=
  {[ "detector"%string := CfgDetector (StoredDetector "inner") ]}.

Definition nested_disk : @Disk unit nat :=
  mkDisk {[ path_join "outer" "config.yaml" := nested_attrs;
            path_join "inner" "config.yaml" := bare_attrs ]} ∅.

Definition nested_weights_disk : @Disk unit nat :=
  mkDisk {[ path_join "outer" "config.yaml" := nested_attrs;
            path_join "inner" "config.yaml" := bare_attrs ]}
         {[ path_join "inner" "detector" := 5%nat ]}.

(** Detectors are numbers: a fresh one is 0, and restoring adds the
    weights. *)
Definition fresh_detector : unit -> unit -> option Path -> M (list LogRecord) nat :=
  fun _ _ _ => m_ret 0%nat.

Definition add_weights : nat -> nat -> nat := Nat.add.

Import Data.

(** A backdoored dataset over a plain one; transforms are numbers, the
    backdoor is 7; the store holds the transforms [1; 2] of the original
    and [3] of the node. *)
Definition plain_original : @DatasetConfig nat :=
  PlainDataset (Some false) true 0%nat.
Definition transform_store : list (list nat) := [[1; 2]; [3]]%nat.
Definition backdoored : @DatasetConfig nat :=
  BackdoorData true 1%nat plain_original 7%nat.

(** An original that has the attribute, with the value [False], and
    raises [AttributeError] when it is assigned to. *)
Definition read_only_original : @DatasetConfig nat :=
  PlainDataset (Some false) false 0%nat.
Definition backdoored_read_only : @DatasetConfig nat :=
  BackdoorData true 1%nat read_only_original 7%nat.

(** A base class without [__post_init__], and one whose [__post_init__]
    changes nothing. *)
Definition no_hook : option (@DatasetConfig nat -> @DatasetConfig nat) := None.
Definition idle_hook : option (@DatasetConfig nat -> @DatasetConfig nat) :=
  Some (fun cfg => cfg).

End Examples.

(** ** What a computation may do to the world *)

Module EpochMetrics.
Import Trainer.

Section WithModel.
Context {Params Grads OptState : Type}.

(** [only_appends m]: whatever [m] returns or raises, the objects in the
    store and the events sent so far are still there, unchanged, and
    anything new comes after them. *)
Definition only_appends {A} (m : M (@World Params Grads OptState) A) : Prop :=
  forall w, exists objects events,
    snd (m w) = mkWorld (heap w ++ objects) (sink w ++ events).

End WithModel.

End EpochMetrics.

(** ** Following stored models *)

Module Resolution.
Import Stored.

Section WithDisk.
Context {DetectorSpec Weights : Type}.
Variable disk : @Disk DetectorSpec Weights.

(** [resolves n cfg final]: from [cfg], [n] stored models, each read from
    the [model] entry of the config file under the path of the one
    before, lead to [final], which is not a stored model. *)
Inductive resolves : nat -> ModelConfig -> ModelConfig -> Prop :=
| resolves_mlp output_dim hidden_dims :
    resolves 0 (MLP output_dim hidden_dims) (MLP output_dim hidden_dims)
| resolves_cnn output_dim channels dense_dims :
    resolves 0 (CNN output_dim channels dense_dims)
      (CNN output_dim channels dense_dims)
| resolves_stored n path attrs cfg final :
    config_files disk !! path_join path "config.yaml" = Some attrs ->
    attrs !! "model"%string = Some (CfgModel cfg) ->
    resolves n cfg final ->
    resolves (S n) (StoredModel path) final.

(** The model a config other than a stored one describes. *)
Definition direct_model (cfg : ModelConfig) : option Model :=
  match cfg with
  | StoredModel _ => None
  | MLP output_dim hidden_dims => Some (mkModel (mlp output_dim hidden_dims))
  | CNN output_dim channels dense_dims =>
      Some (mkModel (cnn output_dim channels dense_dims))
  end.

End WithDisk.
End Resolution.

(** ** Script configs ([cupbearer/utils/scripts.py]) *)

Module Scripts.
Import Stored.

(** What [get_config()] returns: the settings of the run. *)
Record GlobalConfig : Set := mkGlobalConfig {
  global_debug : bool;
  global_path : option Path
}.

Section WithGlobalConfig.
Variable get_config : GlobalConfig.

(** The properties [debug], [path] and [output_enabled] of
    [ScriptConfig]. *)
Definition debug : bool := global_debug get_config.

Definition path : result Path :=
  match global_path get_config with
  | None => Err ValueError
  | Some p => Ok p
  end.

Definition output_enabled : bool :=
  match global_path get_config with
  | None => false
  | Some _ => true
  end.

End WithGlobalConfig.
End Scripts.

(** ** More concrete inputs *)

Module MoreExamples.
Import Arrays Trainer Examples.
Local Open Scope R_scope.

(** Two predicted layers followed by a last one, [q]. *)
Definition two_predictions : list Array := [const_array 1 1 0; const_array 1 1 0].

Definition state_with_last (q : Array) : @TrainState unit unit unit :=
  fixed_state three_layers (two_predictions ++ [q]) zero_logits.

(** One epoch over two batches, with the task's logger. *)
Definition two_batch_loader : @DataLoader unit unit :=
  mkDataLoader 2 1 [unit_batch; unit_batch].

Definition two_batch_epoch : result (nat * Metrics) * @World unit unit unit :=
  train_epoch (Rng := unit) unit_grad 0%nat two_batch_loader tt TaskLogger
    (fixed_forward zero_logits) (one_state_world three_layer_state).

Definition no_epoch_config : Config :=
  mkConfig 0 128 (1 / 10) (9 / 10) 256 "model" false false "logs".

Import Stored.

(** The run directory of [bare_disk], with a weights file. *)
Definition weights_disk : @Disk unit nat :=
  mkDisk {[ path_join "run" "config.yaml" := bare_attrs ]}
         {[ path_join "run" "detector" := 5%nat ]}.

(** Two run directories whose stored detectors point at each other. *)
Definition attrs_to (p : Path) : gmap string (@CfgValue unit) :=
  {[ "detector"%string := CfgDetector (StoredDetector p) ]}.

Definition cycle_disk : @Disk unit nat :=
  mkDisk {[ path_join "a" "config.yaml" := attrs_to "b";
            path_join "b" "config.yaml" := attrs_to "a" ]} ∅.

(** A run directory whose [detector] entry is a model config. *)
Definition wrong_kind_attrs : gmap string (@CfgValue unit) :=
  {[ "detector"%string := CfgModel (MLP 10 [256; 256]%Z) ]}.

Definition wrong_kind_disk : @Disk unit nat :=
  mkDisk {[ path_join "run" "config.yaml" := wrong_kind_attrs ]} ∅.

(** A stored model that points at a stored model that points at an MLP. *)
Definition outer_attrs : gmap string (@CfgValue unit) :=
  {[ "model"%string := CfgModel (StoredModel "inner") ]}.
Definition inner_attrs : gmap string (@CfgValue unit) :=
  {[ "model"%string := CfgModel (MLP 10 [256; 256]%Z) ]}.

Definition chain_disk : @Disk unit nat :=
  mkDisk {[ path_join "outer" "config.yaml" := outer_attrs;
            path_join "inner" "config.yaml" := inner_attrs ]} ∅.

End MoreExamples.

(** * Properties *)

(** ** Sums over arrays *)

Module ArrayFacts.
Import Arrays Spec.
Local Open Scope R_scope.

Lemma rsum_ext n f g :
  (forall i, (i < n)%nat -> f i = g i) -> rsum n f = rsum n g.
Proof.
  induction n as [|n IH]; intros H; simpl; [reflexivity|].
  rewrite IH by (intros; apply H; lia). rewrite H by lia. reflexivity.
Qed.

Lemma rsum_nonneg n f :
  (forall i, (i < n)%nat -> 0 <= f i) -> 0 <= rsum n f.
Proof.
  induction n as [|n IH]; intros H; simpl; [lra|].
  assert (0 <= rsum n f) by (apply IH; intros; apply H; lia).
  assert (0 <= f n) by (apply H; lia). lra.
Qed.

Lemma rsum_le n f g :
  (forall i, (i < n)%nat -> f i <= g i) -> rsum n f <= rsum n g.
Proof.
  induction n as [|n IH]; intros H; simpl; [lra|].
  assert (rsum n f <= rsum n g) by (apply IH; intros; apply H; lia).
  assert (f n <= g n) by (apply H; lia). lra.
Qed.

Lemma rsum_minus n f g :
  rsum n (fun i => f i - g i) = rsum n f - rsum n g.
Proof. induction n as [|n IH]; simpl; [lra|]. rewrite IH. lra. Qed.

Lemma bidx_lt dim i : (i < dim)%nat -> bidx dim i = i.
Proof.
  unfold bidx. destruct (Nat.eqb_spec dim 1); [lia | reflexivity].
Qed.

Lemma broadcast_dim_same n : broadcast_dim n n = Some n.
Proof. unfold broadcast_dim. rewrite Nat.eqb_refl. reflexivity. Qed.

Lemma shape_eqb_eq s t : shape_eqb s t = true <-> s = t.
Proof.
  destruct s as [a b], t as [c d]. unfold shape_eqb. simpl.
  rewrite andb_true_iff, !Nat.eqb_eq. split; [intros [-> ->]; reflexivity|].
  intros [= -> ->]. split; reflexivity.
Qed.

(** Given the elementwise exponential of [logits] for [logits.exp()], and
    two arrays of one shape, the array operations of the output loss
    succeed, and their result is the specification's double sum. *)
Lemma output_term_same_shape logits predicted_logits :
  shape predicted_logits = shape logits ->
  Trainer.output_term (array_exp logits) logits predicted_logits
  = Ok (spec_output_loss logits predicted_logits).
Proof.
  intros Hs. unfold shape in Hs. injection Hs as Hr Hc.
  unfold Trainer.output_term, array_sub, array_mul, broadcast2.
  rewrite Hr, Hc, !broadcast_dim_same.
  cbn [rbind nrows ncols array_exp array_map]. rewrite !broadcast_dim_same.
  cbn [rbind]. f_equal.
  unfold vector_mean, spec_output_loss, sum_last.
  cbn [nrows ncols entry vlen ventry array_exp array_map]. f_equal.
  apply rsum_ext. intros i Hi. apply rsum_ext. intros j Hj.
  rewrite !bidx_lt by lia. reflexivity.
Qed.

(** One term of the output loss against the difference of the
    exponentials: exp l - exp p <= exp l * (l - p). *)
Lemma kl_term_lower_bound l p : exp l - exp p <= exp l * (l - p).
Proof.
  pose proof (exp_ineq1_le (p - l)) as H. pose proof (exp_pos l) as Hl.
  assert (exp p = exp l * exp (p - l)) as ->
    by (rewrite <- exp_plus; f_equal; lra).
  nra.
Qed.

Lemma spec_output_loss_nonneg logits predicted_logits :
  (forall i, (i < nrows logits)%nat ->
     rsum (ncols logits) (fun j => exp (entry predicted_logits i j))
     <= rsum (ncols logits) (fun j => exp (entry logits i j))) ->
  0 <= spec_output_loss logits predicted_logits.
Proof.
  intros H. unfold spec_output_loss.
  destruct (nrows logits) as [|b] eqn:Hb.
  - simpl. unfold Rdiv. rewrite Rmult_0_l. lra.
  - apply Rmult_le_pos.
    + apply rsum_nonneg. intros i Hi. specialize (H i Hi).
      eapply Rle_trans; [|apply rsum_le; intros j _; apply kl_term_lower_bound].
      rewrite rsum_minus. lra.
    + left. apply Rinv_0_lt_compat. apply lt_0_INR. lia.
Qed.

Lemma py_zip_length {A B} (xs : list A) : forall ys : list B,
  length (py_zip xs ys) = Nat.min (length xs) (length ys).
Proof.
  induction xs as [|x xs IH]; intros [|y ys]; simpl; auto.
Qed.

(** With n reference layers and n predicted layers, the loop of
    [loss_fn] is over n - 1 pairs, one fewer than the
    [len(predicted_abstractions)] that its sum is divided by. *)
Lemma loop_pairs_one_fewer (abstractions predicted_abstractions : list Array) :
  length abstractions = length predicted_abstractions ->
  length (py_zip (tail abstractions) predicted_abstractions)
  = (length predicted_abstractions - 1)%nat.
Proof.
  intros H. rewrite py_zip_length.
  destruct abstractions; simpl in *; lia.
Qed.

End ArrayFacts.

(** ** The abstraction trainer *)

Module TrainerFacts.
Import Arrays Trainer Spec ArrayFacts.
Local Open Scope R_scope.

Section WithModel.
Context {Params Grads OptState Images Labels RefParams Rng : Type}.
Variable grad_of : (Params -> result (R * (R * R))) -> Params -> Grads.

Abbreviation State := (@TrainState Params Grads OptState).
Abbreviation World := (@World Params Grads OptState).
Abbreviation Fwd := (@ForwardFn Images).
Abbreviation Batch := (@Batch Images Labels).

(** *** The loss *)

(** The violations that the assertions of [loss_fn] catch. *)
Lemma loss_fn_assertions (st : State) logits activations params
    abstractions predicted_abstractions predicted_logits :
  apply_fn st params activations
    = (abstractions, predicted_abstractions, predicted_logits) ->
  length abstractions <> length predicted_abstractions \/
  (exists a0 p0,
     abstractions !! 0%nat = Some a0 /\
     predicted_abstractions !! 0%nat = Some p0 /\
     (shape p0 <> shape a0 \/
      shape logits <> (nrows a0, 10%nat) \/
      shape predicted_logits <> (nrows a0, 10%nat))) ->
  loss_fn st logits activations params = Err AssertionError.
Proof.
  intros Hap Hviol. unfold loss_fn. rewrite Hap.
  destruct (Nat.eqb_spec (length abstractions) (length predicted_abstractions))
    as [Hlen|Hlen]; simpl; [|reflexivity].
  destruct Hviol as [Hviol|(a0 & p0 & Ha0 & Hp0 & Hviol)]; [contradiction|].
  unfold py_index. rewrite Ha0, Hp0. simpl.
  destruct (shape_eqb (shape p0) (nrows a0, ncols a0)) eqn:Hs0; simpl; [|reflexivity].
  destruct (shape_eqb (shape logits) (nrows a0, 10%nat)) eqn:Hsl; simpl;
    [|reflexivity].
  destruct (shape_eqb (nrows a0, 10%nat) (shape predicted_logits)) eqn:Hsp; simpl;
    [|reflexivity].
  apply shape_eqb_eq in Hs0, Hsl, Hsp. unfold shape in *.
  destruct Hviol as [?|[?|?]]; congruence.
Qed.

(** Without any layer the first index of [loss_fn] raises before the
    shapes of the logits are looked at. *)
Lemma loss_fn_no_layers (st : State) logits activations params predicted_logits :
  apply_fn st params activations = ([], [], predicted_logits) ->
  loss_fn st logits activations params = Err IndexError.
Proof. intros Hap. unfold loss_fn. rewrite Hap. reflexivity. Qed.

(** When every check of [loss_fn] passes, the next thing evaluated is
    [logits.exp()], which raises. *)
Lemma loss_fn_checks_pass (st : State) logits activations params
    abstractions predicted_abstractions predicted_logits a0 p0 :
  apply_fn st params activations
    = (abstractions, predicted_abstractions, predicted_logits) ->
  length abstractions = length predicted_abstractions ->
  abstractions !! 0%nat = Some a0 ->
  predicted_abstractions !! 0%nat = Some p0 ->
  shape p0 = shape a0 ->
  shape logits = (nrows a0, 10%nat) ->
  shape predicted_logits = (nrows a0, 10%nat) ->
  loss_fn st logits activations params = Err AttributeError.
Proof.
  intros Hap Hlen Ha0 Hp0 Hsp Hsl Hspl. unfold loss_fn. rewrite Hap.
  rewrite (proj2 (Nat.eqb_eq _ _) Hlen). simpl.
  unfold py_index. rewrite Ha0, Hp0. simpl.
  rewrite (proj2 (shape_eqb_eq (shape p0) (nrows a0, ncols a0)) Hsp). simpl.
  rewrite (proj2 (shape_eqb_eq _ _) Hsl). simpl.
  rewrite (proj2 (shape_eqb_eq _ _) (eq_sym Hspl)). reflexivity.
Qed.

(** [loss_fn] has no path to its [return]. *)
Lemma loss_fn_raises (st : State) logits activations params :
  exists e, loss_fn st logits activations params = Err e.
Proof.
  unfold loss_fn.
  destruct (apply_fn st params activations) as [[abstractions predicted] plog].
  destruct (length abstractions =? length predicted)%nat; simpl; [|eauto].
  unfold py_index.
  destruct (abstractions !! 0%nat) as [a0|]; simpl; [|eauto].
  destruct (predicted !! 0%nat) as [p0|]; simpl; [|eauto].
  destruct (shape_eqb (shape p0) (nrows a0, ncols a0)); simpl; [|eauto].
  destruct (shape_eqb (shape logits) (nrows a0, 10%nat)
            && shape_eqb (nrows a0, 10%nat) (shape plog)); simpl; eauto.
Qed.

(** *** Calls of [apply_model] *)

(** The body of [apply_model] on its own: it reads the state, evaluates
    the loss, which raises, and leaves the world as it was. *)
Lemma apply_model_body_raises (w : World) state (batch : Batch) (fwd : Fwd) :
  exists e, apply_model_body grad_of state batch fwd w = (Err e, w).
Proof.
  unfold apply_model_body. destruct batch as [[images labels] backdoored].
  destruct (fwd images) as [logits activations].
  unfold m_bind, deref. destruct (heap w !! state) as [st|]; [|eauto].
  unfold m_lift, value_and_grad.
  destruct (loss_fn_raises st logits activations (params st)) as [e ->]. eauto.
Qed.

Lemma bind_apply_model_raises (w : World) (args : list (@PyValue Images Labels)) :
  exists e, bind_apply_model grad_of args w = (Err e, w).
Proof.
  unfold bind_apply_model.
  repeat (match goal with
          | |- exists e, (match ?x with _ => _ end) _ = _ => destruct x
          end; try (eexists; reflexivity)).
  apply apply_model_body_raises.
Qed.

(** Every call of the name [apply_model] raises and leaves the world as
    it was. *)
Lemma call_apply_model_raises (w : World) (args : list (@PyValue Images Labels)) :
  exists e, call_apply_model grad_of args w = (Err e, w).
Proof.
  unfold call_apply_model. destruct (forallb is_jax_type args); [|eauto].
  unfold m_bind. destruct (bind_apply_model_raises w args) as [e ->]. eauto.
Qed.

(** The call with a state, a batch and a function is refused by the
    wrapper of [jax.jit]: the function is not an argument it accepts. *)
Lemma apply_model_raises (w : World) state (batch : Batch) (fwd : Fwd) :
  apply_model grad_of state batch fwd w = (Err TypeError, w).
Proof. reflexivity. Qed.

(** C2: the code on every call. [apply_model(state, batch, forward_fn)]
    raises [TypeError] in the wrapper of [jax.jit], with the world as it
    was, and [loss_fn] itself raises on every input, so
    [jax.value_and_grad] never has a loss to differentiate: no loss
    [output_loss + consistency_loss] is computed for any batch. *)
Theorem apply_model_differentiates_nothing :
  (forall (w : World) state (batch : Batch) (fwd : Fwd),
     apply_model grad_of state batch fwd w = (Err TypeError, w)) /\
  (forall (st : State) logits activations params,
     exists e,
       loss_fn st logits activations params = Err e /\
       value_and_grad grad_of (loss_fn st logits activations) params = Err e).
Proof.
  split.
  - intros. apply apply_model_raises.
  - intros st logits activations params.
    destruct (loss_fn_raises st logits activations params) as [e He].
    exists e. split; [exact He|]. unfold value_and_grad. rewrite He. reflexivity.
Qed.

(** C7: [apply_model] leaves the world, and so the state object, as it
    was, and its result is a function of the state's value, the batch and
    the forward function alone; [update_model] returns a reference to a
    new object whose step counter is one more, and the object passed in,
    like every other object, is unchanged. *)
Theorem train_state_not_mutated (w : World) state (st : State) (batch : Batch)
    (fwd : Fwd) (grads : Grads) :
  heap w !! state = Some st ->
  snd (apply_model grad_of state batch fwd w) = w /\
  (forall (w2 : World) state2,
      heap w2 !! state2 = Some st ->
      fst (apply_model grad_of state2 batch fwd w2)
      = fst (apply_model grad_of state batch fwd w)) /\
  exists state' w' st',
    update_model state grads w = (Ok state', w') /\
    heap w' !! state' = Some st' /\
    step st' = (step st + 1)%Z /\
    state' <> state /\
    heap w' !! state = Some st /\
    (forall r, (r < length (heap w))%nat -> heap w' !! r = heap w !! r) /\
    sink w' = sink w.
Proof.
  intros Hst. split; [|split].
  - rewrite apply_model_raises. reflexivity.
  - intros w2 state2 Hst2. rewrite !apply_model_raises. reflexivity.
  - unfold update_model, m_bind, deref, alloc. rewrite Hst.
    eexists _, _, _. split; [reflexivity|]. simpl.
    pose proof (lookup_lt_Some _ _ _ Hst) as Hlt.
    repeat split.
    + rewrite lookup_app_r by lia. rewrite Nat.sub_diag. reflexivity.
    + unfold apply_gradients. destruct (opt_update _ _ _ _). reflexivity.
    + lia.
    + rewrite lookup_app_l by lia. exact Hst.
    + intros r Hr. rewrite lookup_app_l by lia. reflexivity.
Qed.


(** *** The driver *)

Abbreviation quietW := (@quiet Params Grads OptState _).
Abbreviation failsW := (@fails Params Grads OptState _).

Lemma quiet_ret {A} (a : A) : quietW (m_ret a).
Proof. intros w. reflexivity. Qed.

Lemma quiet_raise {A} e : quietW (@m_raise World A e).
Proof. intros w. reflexivity. Qed.

Lemma quiet_lift {A} (r : result A) : quietW (@m_lift World A r).
Proof. intros w. reflexivity. Qed.

Lemma quiet_bind {A B} (m : M World A) (k : A -> M World B) :
  quietW m -> (forall a, quietW (k a)) -> quietW (m_bind m k).
Proof.
  intros Hm Hk w. unfold m_bind. specialize (Hm w).
  destruct (m w) as [[a|e] w1]; simpl in *; [|exact Hm].
  rewrite Hk. exact Hm.
Qed.

Lemma fails_bind_l {A B} (m : M World A) (k : A -> M World B) :
  failsW m -> failsW (m_bind m k).
Proof.
  intros Hm w. unfold m_bind. destruct (Hm w) as [e He].
  destruct (m w) as [[a|e'] w1]; simpl in *; [discriminate|]. eauto.
Qed.

Lemma fails_bind_r {A B} (m : M World A) (k : A -> M World B) :
  (forall a, failsW (k a)) -> failsW (m_bind m k).
Proof.
  intros Hk w. unfold m_bind.
  destruct (m w) as [[a|e'] w1]; simpl; [apply Hk|eauto].
Qed.

Lemma quiet_deref r : quietW (deref r).
Proof. intros w. unfold deref. destruct (heap w !! r); reflexivity. Qed.

Lemma quiet_alloc (st : State) : quietW (alloc st).
Proof. intros w. reflexivity. Qed.

Lemma quiet_report lg title series v it :
  quietW (report_scalar lg title series v it).
Proof.
  intros w. destruct lg; simpl; [reflexivity|].
  unfold metrics_logged. simpl. rewrite filter_app.
  rewrite filter_cons_False by (simpl; congruence).
  rewrite filter_nil. apply app_nil_r.
Qed.

Lemma quiet_call_apply_model (args : list (@PyValue Images Labels)) :
  quietW (call_apply_model grad_of args).
Proof.
  intros w. destruct (call_apply_model_raises w args) as [e ->]. reflexivity.
Qed.

Lemma quiet_apply_model state (batch : Batch) (fwd : Fwd) :
  quietW (apply_model grad_of state batch fwd).
Proof. apply quiet_call_apply_model. Qed.

Lemma quiet_update_model state (grads : Grads) :
  quietW (update_model state grads).
Proof.
  unfold update_model. apply quiet_bind; [apply quiet_deref|].
  intros st. apply quiet_alloc.
Qed.

Lemma quiet_record_metrics lg it items : forall em,
  quietW (record_metrics lg it items em).
Proof.
  induction items as [|[k v] rest IH]; intros em; simpl.
  - apply quiet_ret.
  - apply quiet_bind; [apply quiet_report|]. intros _. apply IH.
Qed.

Lemma quiet_train_batches lg (fwd : Fwd) (bs : list Batch) :
  forall state em, quietW (train_batches grad_of lg fwd bs state em).
Proof.
  induction bs as [|b rest IH]; intros state em; simpl.
  - apply quiet_ret.
  - apply quiet_bind; [apply quiet_apply_model|]. intros [grads metrics].
    apply quiet_bind; [apply quiet_update_model|]. intros state'.
    apply quiet_bind; [apply quiet_deref|]. intros st.
    apply quiet_bind; [apply quiet_record_metrics|]. intros em'. apply IH.
Qed.

Lemma quiet_train_epoch state (loader : @DataLoader Images Labels) (rng : Rng)
    lg (fwd : Fwd) :
  quietW (train_epoch grad_of state loader rng lg fwd).
Proof.
  unfold train_epoch. apply quiet_bind.
  - destruct (loader_batch_size loader =? 0)%nat; [apply quiet_raise|apply quiet_ret].
  - intros _. apply quiet_bind; [apply quiet_train_batches|].
    intros [state' em]. apply quiet_ret.
Qed.

Variable abstraction_init : Z -> nat -> Rng -> Params.
Variable abstraction_apply : Z -> nat -> @ApplyFn Params.
Variable sgd : R -> R -> @Optimizer Params Grads OptState.
Variable get_data_loaders : Z -> @DataLoader Images Labels * @DataLoader Images Labels.
Variable PRNGKey : Z -> Rng.
Variable split : Rng -> Rng * Rng.
Variable load : string -> result RefParams.
Variable mlp_apply : RefParams -> Fwd.

(** The first epoch of the loop never completes: whatever happens before
    it, the evaluation call has too few arguments. Nothing is written to
    the log on the way. *)
Lemma epoch_loop_first_epoch (train_loader test_loader : @DataLoader Images Labels)
    lg (fwd : Fwd) epoch rest rng state :
  failsW (epoch_loop grad_of split train_loader test_loader lg fwd (epoch :: rest) rng state)
  /\ quietW (epoch_loop grad_of split train_loader test_loader lg fwd (epoch :: rest) rng state).
Proof.
  simpl. destruct (split rng) as [rng' input_rng]. split.
  - apply fails_bind_r. intros st.
    apply fails_bind_r. intros _.
    apply fails_bind_r. intros [state' train_metrics].
    apply fails_bind_r. intros test_batch.
    apply fails_bind_l. intros w. exists TypeError. reflexivity.
  - apply quiet_bind; [apply quiet_deref|]. intros st.
    apply quiet_bind; [apply quiet_report|]. intros _.
    apply quiet_bind; [apply quiet_train_epoch|]. intros [state' train_metrics].
    apply quiet_bind; [apply quiet_lift|]. intros test_batch.
    intros w. reflexivity.
Qed.

(** C5: the code at every configuration with at least one epoch.
    [train_and_evaluate] does not run [num_epochs] epochs: it raises
    during the first one, and no epoch line with train and test metrics
    is ever logged. *)
Theorem train_and_evaluate_fails_in_first_epoch config (w : World) :
  (1 <= num_epochs config)%Z ->
  exists e w',
    train_and_evaluate grad_of abstraction_init abstraction_apply sgd
      get_data_loaders PRNGKey split load mlp_apply config w = (Err e, w')
    /\ metrics_logged w' = metrics_logged w.
Proof.
  intros Hn.
  assert (exists epoch rest, py_range_from 1 (num_epochs config) = epoch :: rest)
    as (epoch & rest & Hr).
  { unfold py_range_from. destruct (Z.to_nat (num_epochs config)) eqn:E; [lia|].
    simpl. eauto. }
  match goal with |- exists e w', ?m w = _ /\ _ =>
    assert (failsW m /\ quietW m) as [Hf Hq] end.
  { unfold train_and_evaluate. rewrite Hr.
    destruct (get_data_loaders (batch_size config)) as [train_loader test_loader].
    destruct (split (PRNGKey 0)) as [rng init_rng].
    split.
    - apply fails_bind_r. intros nc.
      apply fails_bind_r. intros state.
      apply fails_bind_r. intros params.
      apply epoch_loop_first_epoch.
    - apply quiet_bind.
      { destruct (debug config); [apply quiet_raise|apply quiet_ret]. }
      intros nc. apply quiet_bind; [apply quiet_alloc|]. intros state.
      apply quiet_bind; [apply quiet_lift|]. intros params.
      apply epoch_loop_first_epoch. }
  destruct (Hf w) as [e He]. specialize (Hq w).
  destruct (train_and_evaluate _ _ _ _ _ _ _ _ _ _ w) as [r w'] eqn:E.
  simpl in *. subst r. eauto.
Qed.

End WithModel.

(** *** The properties at concrete inputs *)

Import Examples.

(** C1: the code at three reference layers 0, 1, 1 and three predicted
    layers 0, 0, 0, where the two squared-error terms are both 1. The
    call [apply_model(state, batch, forward_fn)] raises [TypeError] in the
    wrapper of [jax.jit] and leaves the world as it was, and [loss_fn]
    called on its own passes its assertions and raises [AttributeError]
    at [logits.exp()]: no [consistency_loss] is reported. At this input
    the loop of [loss_fn] is over the 2 pairs of
    [zip(abstractions[1:], predicted_abstractions)], and the divisor that
    follows it, [len(predicted_abstractions)], is 3. *)
Theorem three_layer_consistency_loss_not_reported :
  three_layer_run = (Err TypeError, one_state_world three_layer_state) /\
  loss_fn three_layer_state zero_logits [] tt = Err AttributeError /\
  length (py_zip (tail three_layers) three_predictions) = 2%nat /\
  length three_predictions = 3%nat.
Proof. repeat split. Qed.

(** C6: the code at two violations of the preconditions. With three
    reference layers against two predicted layers, the call
    [apply_model(state, batch, forward_fn)] raises [TypeError] in the
    wrapper of [jax.jit], not an assertion failure; [loss_fn] called on
    its own does raise [AssertionError] there. With no layers at all and
    logits of shape (1, 3), the call raises [TypeError] likewise, and
    [loss_fn] called on its own raises [IndexError] at [abstractions[0]],
    before the assertion on the shapes of the logits. *)
Theorem violated_preconditions_raise_other_errors :
  apply_model unit_grad 0%nat unit_batch (fixed_forward zero_logits)
    (one_state_world mismatched_state)
  = (Err TypeError, one_state_world mismatched_state) /\
  loss_fn mismatched_state zero_logits [] tt = Err AssertionError /\
  apply_model unit_grad 0%nat unit_batch (fixed_forward narrow_logits)
    (one_state_world no_layer_state)
  = (Err TypeError, one_state_world no_layer_state) /\
  shape narrow_logits <> shape zero_logits /\
  loss_fn no_layer_state narrow_logits [] tt = Err IndexError.
Proof. repeat split. discriminate. Qed.

Lemma train_state_not_mutated_witness :
  heap (one_state_world three_layer_state) !! 0%nat = Some three_layer_state /\
  exists state' w' st',
    update_model 0%nat tt (one_state_world three_layer_state) = (Ok state', w') /\
    heap w' !! state' = Some st' /\
    step st' = 4%Z /\
    heap w' !! 0%nat = Some three_layer_state.
Proof.
  split; [reflexivity|].
  destruct (train_state_not_mutated unit_grad (one_state_world three_layer_state)
              0%nat three_layer_state unit_batch (fixed_forward zero_logits) tt
              eq_refl)
    as (_ & _ & state' & w' & st' & Hu & Hnew & Hstep & _ & Hold & _).
  exists state', w', st'. repeat split; assumption.
Defined.



(** The one-epoch run of the examples: the epoch is announced to the
    metrics sink, training (on no batches) succeeds, and the evaluation
    call raises [TypeError]. *)
Lemma one_epoch_run_value :
  fst one_epoch_run = Err TypeError /\
  sink (snd one_epoch_run) = [ReportScalar "epoch" "epoch" 1 0].
Proof. split; reflexivity. Qed.

Lemma train_and_evaluate_fails_in_first_epoch_witness :
  (1 <= num_epochs one_epoch_config)%Z /\
  exists e w', one_epoch_run = (Err e, w') /\ metrics_logged w' = [].
Proof.
  split; [simpl; lia|].
  unfold one_epoch_run.
  apply (train_and_evaluate_fails_in_first_epoch (RefParams := unit) (Rng := unit)
           unit_grad _ _ _ _ _ _ _ _ one_epoch_config (mkWorld [] [])).
  simpl. lia.
Defined.

End TrainerFacts.

(** ** Stored components *)

Module StoredFacts.
Import Stored.

Section WithDetectors.
Context {DetectorSpec Detector Weights HookedModel : Type}.
Variable disk : @Disk DetectorSpec Weights.
Variable build_concrete :
  DetectorSpec -> HookedModel -> option Path -> M (list LogRecord) Detector.
Variable restore : Detector -> Weights -> Detector.

Lemma load_config_found {T} path name (expected : CfgValue -> option T) attrs v c log :
  config_files disk !! path_join path "config.yaml" = Some attrs ->
  attrs !! name = Some v ->
  expected v = Some c ->
  load_config disk path name expected log = (Ok c, log ++ [LogDebug name path]).
Proof.
  intros Hf Hv Hc. unfold load_config, m_bind, logger_debug.
  rewrite Hf, Hv, Hc. reflexivity.
Qed.

Lemma count_warnings_app l1 l2 :
  count_warnings (l1 ++ l2) = count_warnings l1 + count_warnings l2.
Proof. unfold count_warnings. rewrite filter_app, length_app. reflexivity. Qed.

(** A stored detector that points at itself is refused at the first
    call: one level of depth is enough to reach the error. *)
Lemma stored_detector_self_reference p attrs fuel model save_dir log :
  config_files disk !! path_join p "config.yaml" = Some attrs ->
  attrs !! "detector" = Some (CfgDetector (StoredDetector p)) ->
  build disk build_concrete restore (S fuel) (StoredDetector p) model save_dir log
  = (Err RuntimeError, log ++ [LogDebug "detector" p]).
Proof.
  intros Hf Hd. simpl. unfold m_bind at 1.
  rewrite (load_config_found p "detector" as_detector_config _ _ _ _ Hf Hd eq_refl).
  simpl. rewrite bool_decide_eq_true_2 by reflexivity. reflexivity.
Qed.

(** A stored model that points at itself loads its config again at every
    level of depth it is given, and ends in [RecursionError]. *)
Lemma stored_model_self_reference p attrs log :
  config_files disk !! path_join p "config.yaml" = Some attrs ->
  attrs !! "model" = Some (CfgModel (StoredModel p)) ->
  forall fuel,
    build_model disk fuel (StoredModel p) log
    = (Err RecursionError, log ++ replicate fuel (LogDebug "model" p)).
Proof.
  intros Hf Hm fuel. revert log.
  induction fuel as [|fuel IH]; intros log.
  - simpl. rewrite app_nil_r. reflexivity.
  - simpl. unfold m_bind at 1.
    rewrite (load_config_found p "model" as_model_config _ _ _ _ Hf Hm eq_refl).
    rewrite IH, <- app_assoc. reflexivity.
Qed.

(** C3: the code at a config file that holds a stored detector and a
    stored model pointing at the file's own directory. The detector's
    [build] raises the self-reference error at depth one. The model's
    [build_model] has no such guard: for every depth allowed it uses the
    whole depth, loading the config once per level, and raises
    [RecursionError]. *)
Theorem stored_self_reference p attrs model save_dir log :
  config_files disk !! path_join p "config.yaml" = Some attrs ->
  attrs !! "detector" = Some (CfgDetector (StoredDetector p)) ->
  attrs !! "model" = Some (CfgModel (StoredModel p)) ->
  (forall fuel,
     build disk build_concrete restore (S fuel) (StoredDetector p) model save_dir log
     = (Err RuntimeError, log ++ [LogDebug "detector" p]))
  /\
  (forall fuel,
     build_model disk fuel (StoredModel p) log
     = (Err RecursionError, log ++ replicate fuel (LogDebug "model" p))).
Proof.
  intros Hf Hd Hm. split; intros fuel.
  - eapply stored_detector_self_reference; eauto.
  - eapply stored_model_self_reference; eauto.
Qed.

(** C4, amended: when the config under [p] loads, is not a pointer back
    to [p], and builds a detector, and there is no weights file
    [p/detector], [build] returns that detector as the nested build left
    it and adds one warning of its own after what the nested build
    logged; no error is raised. When the nested build has logged no
    warning, the log of the whole call holds exactly one warning more
    than before the call. *)
Theorem stored_detector_missing_weights
    p attrs detector_cfg fuel model save_dir log detector log' :
  config_files disk !! path_join p "config.yaml" = Some attrs ->
  attrs !! "detector" = Some (CfgDetector detector_cfg) ->
  is_stored_at detector_cfg p = false ->
  build disk build_concrete restore fuel detector_cfg model save_dir
    (log ++ [LogDebug "detector" p]) = (Ok detector, log') ->
  weight_files disk !! path_join p "detector" = None ->
  build disk build_concrete restore (S fuel) (StoredDetector p) model save_dir log
    = (Ok detector, log' ++ [LogWarning p])
  /\ (count_warnings log' = count_warnings log ->
      count_warnings (log' ++ [LogWarning p]) = S (count_warnings log)).
Proof.
  intros Hf Hd Hns Hb Hw. split.
  - simpl. unfold m_bind at 1.
    rewrite (load_config_found p "detector" as_detector_config _ _ _ _ Hf Hd eq_refl).
    rewrite Hns. unfold m_bind at 1. rewrite Hb.
    unfold m_bind, try_except, load_weights. rewrite Hw. simpl. reflexivity.
  - intros Hq. rewrite count_warnings_app, Hq. unfold count_warnings at 2. simpl. lia.
Qed.

End WithDetectors.

Import Examples.

Lemma stored_self_reference_witness :
  config_files self_disk !! path_join "run" "config.yaml" = Some self_attrs /\
  build self_disk fresh_detector add_weights 1 (StoredDetector "run") tt None []
    = (Err RuntimeError, [LogDebug "detector" "run"]) /\
  build_model self_disk 3 (StoredModel "run") []
    = (Err RecursionError, replicate 3 (LogDebug "model" "run")).
Proof.
  split; [reflexivity|].
  destruct (stored_self_reference self_disk fresh_detector add_weights "run"
              self_attrs tt None [] eq_refl eq_refl eq_refl) as [Hd Hm].
  split; [apply (Hd 0) | apply (Hm 3)].
Defined.

(** C4, as stated, fails. A stored detector whose config holds another
    stored detector, with no weights file under either path: one call of
    [build] emits two warnings. With a weights file under the inner path
    only, the detector returned is not a freshly built one: it carries
    the weights restored by the nested build. *)
Lemma nested_stored_detector_warns_twice :
  weight_files nested_disk !! path_join "outer" "detector" = None /\
  build nested_disk fresh_detector add_weights 3 (StoredDetector "outer") tt None []
    = (Ok 0, [LogDebug "detector" "outer"; LogDebug "detector" "inner";
              LogWarning "inner"; LogWarning "outer"]) /\
  count_warnings [LogDebug "detector" "outer"; LogDebug "detector" "inner";
                  LogWarning "inner"; LogWarning "outer"] = 2 /\
  weight_files nested_weights_disk !! path_join "outer" "detector" = None /\
  build nested_weights_disk fresh_detector add_weights 3 (StoredDetector "outer")
    tt None []
    = (Ok 5, [LogDebug "detector" "outer"; LogDebug "detector" "inner";
              LogWarning "outer"]) /\
  fresh_detector tt tt None [] = (Ok 0, []).
Proof. repeat split. Qed.

Lemma stored_detector_missing_weights_witness :
  weight_files bare_disk !! path_join "run" "detector" = None /\
  build bare_disk fresh_detector add_weights 2 (StoredDetector "run") tt None []
    = (Ok 0, [LogDebug "detector" "run"; LogWarning "run"]) /\
  count_warnings [LogDebug "detector" "run"; LogWarning "run"] = 1.
Proof.
  split; [reflexivity|].
  destruct (stored_detector_missing_weights bare_disk fresh_detector add_weights "run"
              bare_attrs (ConcreteDetector tt) 1 tt None [] 0 [LogDebug "detector" "run"]
              eq_refl eq_refl eq_refl eq_refl eq_refl) as [Hb Hc].
  split; [exact Hb|exact (Hc eq_refl)].
Defined.

End StoredFacts.

(** ** Backdoored datasets *)

Module DataFacts.
Import Data.

Section WithTransforms.
Context {Transform : Type}.
Variable base_post_init : option (@DatasetConfig Transform -> @DatasetConfig Transform).

Abbreviation Lists := (list (list Transform)).
Abbreviation Config := (@DatasetConfig Transform).


Lemma transforms_of_agree (cfg : Config) (s s' : Lists) :
  refs_valid s cfg -> agree_below (length s) s s' ->
  transforms_of s' cfg = transforms_of s cfg.
Proof.
  intros Hv Ha. induction cfg as [na a ts|na ts o IH b]; simpl in *.
  - rewrite Ha by lia. reflexivity.
  - destruct Hv as [Hts Ho]. rewrite IH by assumption. rewrite Ha by lia. reflexivity.
Qed.

Lemma refs_valid_mono (cfg : Config) (s s' : Lists) :
  refs_valid s cfg -> length s <= length s' -> refs_valid s' cfg.
Proof.
  intros Hv Hl. induction cfg as [na a ts|na ts o IH b]; simpl in *.
  - lia.
  - destruct Hv. split; [lia|auto].
Qed.

(** [get_transforms] returns a list holding the transforms of the config;
    the lists that were in the store are as they were. *)
Lemma get_transforms_spec (cfg : Config) : forall s : Lists,
  refs_valid s cfg ->
  exists r s',
    get_transforms cfg s = (Ok r, s') /\
    s' !! r = Some (transforms_of s cfg) /\
    length s <= length s' /\
    agree_below (length s) s s'.
Proof.
  induction cfg as [na a ts|na ts o IH b]; intros s Hv; simpl in Hv.
  - exists ts, s. cbn [get_transforms transforms_of]. unfold base_get_transforms, m_ret.
    destruct (lookup_lt_is_Some_2 s ts Hv) as [l Hl]. rewrite Hl.
    repeat split; auto.
  - destruct Hv as [Hts Ho].
    destruct (lookup_lt_is_Some_2 s ts Hts) as [own Hown].
    set (t := length s). set (s1 := s ++ [[]]).
    assert (Hlen1 : length s1 = S t) by (unfold s1; rewrite length_app; simpl; lia).
    destruct (IH s1) as (ro & s2 & Hgo & Hro & Hlen2 & Hag2).
    { eapply refs_valid_mono; [exact Ho|lia]. }
    assert (Ht2 : s2 !! t = Some []).
    { rewrite Hag2 by lia. unfold s1. rewrite lookup_app_r by lia.
      unfold t. rewrite Nat.sub_diag. reflexivity. }
    assert (Hag1 : agree_below (length s) s s1).
    { intros i Hi. unfold s1. rewrite lookup_app_l by lia. reflexivity. }
    assert (Hto : transforms_of s1 o = transforms_of s o)
      by (apply transforms_of_agree; assumption).
    rewrite Hto in Hro.
    assert (Hts2 : s2 !! ts = Some own).
    { rewrite Hag2 by lia. rewrite Hag1 by lia. exact Hown. }
    exists t, (<[t := transforms_of s o ++ own ++ [b]]> s2).
    split; [|split; [|split]].
    + cbn [get_transforms]. unfold m_bind at 1. unfold new_list. fold s1. fold t.
      unfold m_bind at 1. rewrite Hgo.
      unfold m_bind at 1. unfold extend_list at 1. rewrite Ht2, Hro. simpl.
      unfold m_bind at 1. unfold base_get_transforms, m_ret at 1.
      unfold m_bind at 1. unfold extend_list.
      rewrite list_lookup_insert_eq by lia.
      rewrite list_lookup_insert_ne by lia. rewrite Hts2.
      unfold m_bind, append_item. rewrite list_lookup_insert_eq
        by (rewrite length_insert; lia).
      unfold m_ret. rewrite !list_insert_insert_eq, <- app_assoc. reflexivity.
    + cbn [transforms_of]. rewrite Hown. cbn [default]. apply list_lookup_insert_eq. lia.
    + rewrite length_insert. lia.
    + intros i Hi. rewrite list_lookup_insert_ne by lia.
      rewrite Hag2 by lia. apply Hag1. exact Hi.
Qed.

Lemma save_spec (cfg : Config) : forall s : Lists,
  refs_valid s cfg ->
  exists doc, save cfg s = (Ok doc, s) /\ saved_transforms doc = transforms_of s cfg.
Proof.
  induction cfg as [na a ts|na ts o IH b]; intros s Hv; simpl in Hv.
  - destruct (lookup_lt_is_Some_2 s ts Hv) as [l Hl].
    exists (SavedPlain na a l). cbn [save transforms_of].
    unfold m_bind, read_list. rewrite Hl. split; reflexivity.
  - destruct Hv as [Hts Ho].
    destruct (lookup_lt_is_Some_2 s ts Hts) as [l Hl].
    destruct (IH s Ho) as (d & Hd & Hdt).
    exists (SavedBackdoorData na l d b). cbn [save transforms_of saved_transforms].
    unfold m_bind at 1. unfold read_list. rewrite Hl.
    unfold m_bind at 1. rewrite Hd. unfold m_ret. rewrite Hdt. split; reflexivity.
Qed.

Lemma set_no_augmentation_keeps (o o' : Config) v (s : Lists) :
  set_no_augmentation o v = Ok o' ->
  transforms_of s o' = transforms_of s o /\ (refs_valid s o -> refs_valid s o').
Proof.
  destruct o as [na a ts|na ts o b]; simpl.
  - destruct a; [|discriminate]. intros [= <-]. split; auto.
  - intros [= <-]. split; auto.
Qed.

Lemma make_BackdoorData_keeps na ts (o : Config) b (s : Lists) :
  base_keeps_transforms base_post_init ->
  refs_valid s (BackdoorData na ts o b) ->
  transforms_of s (make_BackdoorData base_post_init na ts o b)
    = transforms_of s (BackdoorData na ts o b)
  /\ refs_valid s (make_BackdoorData base_post_init na ts o b).
Proof.
  intros Hbase Hv. unfold make_BackdoorData, post_init, run_base_post_init.
  assert (exists na', match base_post_init with
                      | Some f => f (BackdoorData na ts o b)
                      | None => BackdoorData na ts o b
                      end = BackdoorData na' ts o b) as [na' ->].
  { destruct base_post_init as [f|] eqn:E; [|eauto]. apply (Hbase f eq_refl). }
  destruct na'; [|split; [reflexivity|exact Hv]].
  destruct (set_no_augmentation o true) as [o'|e] eqn:E;
    [|split; [reflexivity|exact Hv]].
  destruct (set_no_augmentation_keeps _ _ _ s E) as [Ht Hr].
  cbn [transforms_of refs_valid] in *. rewrite Ht. destruct Hv. split; auto.
Qed.

Lemma reload_spec (doc : @Saved Transform) : forall s : Lists,
  base_keeps_transforms base_post_init ->
  exists cfg s',
    reload base_post_init doc s = (Ok cfg, s') /\
    length s <= length s' /\
    agree_below (length s) s s' /\
    refs_valid s' cfg /\
    transforms_of s' cfg = saved_transforms doc.
Proof.
  induction doc as [na a l|na l o IH b]; intros s Hbase.
  - exists (PlainDataset na a (length s)), (s ++ [l]).
    cbn [reload refs_valid transforms_of saved_transforms].
    rewrite length_app. simpl. repeat split; try lia.
    + intros i Hi. rewrite lookup_app_l by lia. reflexivity.
    + rewrite lookup_app_r by lia. rewrite Nat.sub_diag. reflexivity.
  - set (s1 := s ++ [l]).
    assert (Hlen1 : length s1 = S (length s))
      by (unfold s1; rewrite length_app; simpl; lia).
    destruct (IH s1 Hbase) as (co & s2 & Hr & Hlen2 & Hag2 & Hv2 & Ht2).
    assert (Hts : s2 !! length s = Some l).
    { rewrite Hag2 by lia. unfold s1. rewrite lookup_app_r by lia.
      rewrite Nat.sub_diag. reflexivity. }
    assert (Hv : refs_valid s2 (BackdoorData na (length s) co b))
      by (split; [lia|exact Hv2]).
    destruct (make_BackdoorData_keeps na (length s) co b s2 Hbase Hv) as [Ht Hv'].
    exists (make_BackdoorData base_post_init na (length s) co b), s2.
    split; [|split; [|split; [|split]]].
    + cbn [reload]. unfold m_bind at 1. unfold store_list. fold s1.
      unfold m_bind. rewrite Hr. reflexivity.
    + lia.
    + intros i Hi. rewrite Hag2 by lia. unfold s1.
      rewrite lookup_app_l by lia. reflexivity.
    + exact Hv'.
    + rewrite Ht. cbn [transforms_of saved_transforms]. rewrite Ht2, Hts. reflexivity.
Qed.

(** C10: [get_transforms] of a [BackdoorData] node returns a list that
    holds what the original's [get_transforms] returns, then the node's
    own stored transforms, then the backdoor, once, in the last place.
    The node's stored list, like every list already in the store, is as
    it was. Saving the node afterwards, loading it back and asking again
    gives the same transforms. *)
Theorem get_transforms_appends_backdoor_once
    na ts (original : Config) backdoor (s : Lists) :
  let self := BackdoorData na ts original backdoor in
  base_keeps_transforms base_post_init ->
  refs_valid s self ->
  exists from_original own r s1,
    (exists ro so, get_transforms original s = (Ok ro, so)
                   /\ so !! ro = Some from_original) /\
    s !! ts = Some own /\
    get_transforms self s = (Ok r, s1) /\
    s1 !! r = Some (from_original ++ own ++ [backdoor]) /\
    s1 !! ts = Some own /\
    (forall i, i < length s -> s1 !! i = s !! i) /\
    exists doc self' s2 r' s3,
      save self s1 = (Ok doc, s1) /\
      reload base_post_init doc s1 = (Ok self', s2) /\
      get_transforms self' s2 = (Ok r', s3) /\
      s3 !! r' = Some (from_original ++ own ++ [backdoor]).
Proof.
  intros self Hbase Hv. subst self. pose proof Hv as [Hts Ho].
  set (self := BackdoorData na ts original backdoor) in *.
  destruct (lookup_lt_is_Some_2 s ts Hts) as [own Hown].
  destruct (get_transforms_spec original s Ho) as (ro & so & Hgo & Hro & _ & _).
  destruct (get_transforms_spec self s Hv) as (r & s1 & Hg & Hr & Hlen & Hag).
  exists (transforms_of s original), own, r, s1.
  split; [eauto|]. split; [exact Hown|]. split; [exact Hg|].
  unfold self in Hr. cbn [transforms_of] in Hr. rewrite Hown in Hr. cbn [default] in Hr.
  split; [exact Hr|]. split; [rewrite Hag by lia; exact Hown|].
  split; [exact Hag|].
  assert (Hv1 : refs_valid s1 self) by (eapply refs_valid_mono; eauto).
  destruct (save_spec self s1 Hv1) as (doc & Hsave & Hdoc).
  destruct (reload_spec doc s1 Hbase) as (self' & s2 & Hre & _ & _ & Hv2 & Ht2).
  destruct (get_transforms_spec self' s2 Hv2) as (r' & s3 & Hg' & Hr' & _ & _).
  exists doc, self', s2, r', s3. repeat split; auto.
  rewrite Hr', Ht2, Hdoc. rewrite (transforms_of_agree self s s1 Hv Hag).
  unfold self. cbn [transforms_of]. rewrite Hown. reflexivity.
Qed.

End WithTransforms.

Import Examples.



Lemma idle_hook_keeps_transforms : base_keeps_transforms idle_hook.
Proof. intros f [= <-] na ts o b. exists na. reflexivity. Qed.

Lemma get_transforms_appends_backdoor_once_witness :
  refs_valid transform_store backdoored /\
  exists r s1,
    get_transforms backdoored transform_store = (Ok r, s1) /\
    s1 !! r = Some [1; 2; 3; 7] /\
    s1 !! 1 = Some [3] /\
    exists doc self' s2 r' s3,
      save backdoored s1 = (Ok doc, s1) /\
      reload idle_hook doc s1 = (Ok self', s2) /\
      get_transforms self' s2 = (Ok r', s3) /\
      s3 !! r' = Some [1; 2; 3; 7].
Proof.
  assert (Hv : refs_valid transform_store backdoored) by (simpl; lia).
  split; [exact Hv|].
  destruct (get_transforms_appends_backdoor_once idle_hook true 1 plain_original 7
              transform_store idle_hook_keeps_transforms Hv)
    as (fo & own & r & s1 & (ro & so & Hgo & Hro) & Hown & Hg & Hr & Hts & _ & Hre).
  injection Hgo as <- <-. injection Hro as <-. injection Hown as <-.
  exists r, s1. repeat split; assumption.
Defined.

End DataFacts.

(** * Further properties *)

(** ** The loss and the epoch *)

Module TrainerMore.
Import Arrays Trainer ArrayFacts TrainerFacts EpochMetrics.
Local Open Scope R_scope.

Section WithModel.
Context {Params Grads OptState Images Labels RefParams Rng : Type}.
Variable grad_of : (Params -> result (R * (R * R))) -> Params -> Grads.

Abbreviation State := (@TrainState Params Grads OptState).
Abbreviation World := (@World Params Grads OptState).
Abbreviation Fwd := (@ForwardFn Images).
Abbreviation Batch := (@Batch Images Labels).
Abbreviation appends := (@only_appends Params Grads OptState _).

(** X1: what [loss_fn] does, by cases on what the predictor returns. It
    raises [AssertionError] when the two layer lists differ in length;
    [IndexError] when both are empty; [AssertionError] when the first
    predicted layer does not have the shape (b, d) of the first reference
    layer, or [logits] or [predicted_logits] does not have shape (b, 10);
    and [AttributeError], at [logits.exp()], when every check passes. It
    returns in no case. *)
Theorem loss_fn_outcomes (st : State) logits activations params
    abstractions predicted_abstractions predicted_logits :
  apply_fn st params activations
    = (abstractions, predicted_abstractions, predicted_logits) ->
  (length abstractions <> length predicted_abstractions ->
   loss_fn st logits activations params = Err AssertionError) /\
  (abstractions = [] -> predicted_abstractions = [] ->
   loss_fn st logits activations params = Err IndexError) /\
  (forall a0 p0,
     length abstractions = length predicted_abstractions ->
     abstractions !! 0%nat = Some a0 ->
     predicted_abstractions !! 0%nat = Some p0 ->
     (shape p0 <> shape a0 \/
      shape logits <> (nrows a0, 10%nat) \/
      shape predicted_logits <> (nrows a0, 10%nat) ->
      loss_fn st logits activations params = Err AssertionError) /\
     (shape p0 = shape a0 ->
      shape logits = (nrows a0, 10%nat) ->
      shape predicted_logits = (nrows a0, 10%nat) ->
      loss_fn st logits activations params = Err AttributeError)) /\
  (forall v, loss_fn st logits activations params <> Ok v).
Proof.
  intros Hap. split; [|split; [|split]].
  - intros Hlen. eapply loss_fn_assertions; eauto.
  - intros -> ->. eapply loss_fn_no_layers; eauto.
  - intros a0 p0 Hlen Ha0 Hp0. split.
    + intros Hviol. eapply loss_fn_assertions; [exact Hap|].
      right. exists a0, p0. auto.
    + intros Hsp Hsl Hspl. eapply loss_fn_checks_pass; eauto.
  - intros v. destruct (loss_fn_raises st logits activations params) as [e ->].
    discriminate.
Qed.



(** *** The world only grows *)

Lemma appends_same {A} (m : M World A) :
  (forall w, snd (m w) = w) -> appends m.
Proof.
  intros H w. exists [], []. rewrite H, !app_nil_r. destruct w. reflexivity.
Qed.

Lemma appends_bind {A B} (m : M World A) (k : A -> M World B) :
  appends m -> (forall a, appends (k a)) -> appends (m_bind m k).
Proof.
  intros Hm Hk w. unfold m_bind. destruct (Hm w) as (o1 & e1 & H1).
  destruct (m w) as [[a|e] w1]; simpl in *; [|eauto].
  destruct (Hk a w1) as (o2 & e2 & H2). rewrite H2, H1. simpl.
  exists (o1 ++ o2), (e1 ++ e2). rewrite !app_assoc. reflexivity.
Qed.

Lemma appends_ret {A} (a : A) : appends (m_ret a).
Proof. apply appends_same. reflexivity. Qed.

Lemma appends_raise {A} e : appends (@m_raise World A e).
Proof. apply appends_same. reflexivity. Qed.

Lemma appends_lift {A} (r : result A) : appends (@m_lift World A r).
Proof. apply appends_same. reflexivity. Qed.

Lemma appends_deref r : appends (deref r).
Proof.
  apply appends_same. intros w. unfold deref. destruct (heap w !! r); reflexivity.
Qed.

Lemma appends_alloc (st : State) : appends (alloc st).
Proof. intros w. exists [st], []. simpl. rewrite app_nil_r. reflexivity. Qed.

Lemma appends_emit e : appends (emit e).
Proof. intros w. exists [], [e]. simpl. rewrite app_nil_r. reflexivity. Qed.

Lemma appends_report lg title series v it :
  appends (report_scalar lg title series v it).
Proof. destruct lg; [apply appends_ret|apply appends_emit]. Qed.

Lemma appends_call_apply_model (args : list (@PyValue Images Labels)) :
  appends (call_apply_model grad_of args).
Proof.
  apply appends_same. intros w.
  destruct (call_apply_model_raises grad_of w args) as [e ->]. reflexivity.
Qed.

Lemma appends_apply_model state (batch : Batch) (fwd : Fwd) :
  appends (apply_model grad_of state batch fwd).
Proof. apply appends_call_apply_model. Qed.

Lemma appends_update_model state (grads : Grads) : appends (update_model state grads).
Proof.
  unfold update_model. apply appends_bind; [apply appends_deref|].
  intros st. apply appends_alloc.
Qed.

Lemma appends_record_metrics lg it items : forall em,
  appends (record_metrics lg it items em).
Proof.
  induction items as [|[k v] rest IH]; intros em; simpl.
  - apply appends_ret.
  - apply appends_bind; [apply appends_report|]. intros _. apply IH.
Qed.

Lemma appends_train_batches lg (fwd : Fwd) (bs : list Batch) :
  forall state em, appends (train_batches grad_of lg fwd bs state em).
Proof.
  induction bs as [|b rest IH]; intros state em; simpl.
  - apply appends_ret.
  - apply appends_bind; [apply appends_apply_model|]. intros [grads metrics].
    apply appends_bind; [apply appends_update_model|]. intros state'.
    apply appends_bind; [apply appends_deref|]. intros st.
    apply appends_bind; [apply appends_record_metrics|]. intros em'. apply IH.
Qed.

Lemma appends_train_epoch state (loader : @DataLoader Images Labels) (rng : Rng)
    lg (fwd : Fwd) :
  appends (train_epoch grad_of state loader rng lg fwd).
Proof.
  unfold train_epoch. apply appends_bind.
  - destruct (loader_batch_size loader =? 0)%nat; [apply appends_raise|apply appends_ret].
  - intros _. apply appends_bind; [apply appends_train_batches|].
    intros [state' em]. apply appends_ret.
Qed.

Variable abstraction_init : Z -> nat -> Rng -> Params.
Variable abstraction_apply : Z -> nat -> @ApplyFn Params.
Variable sgd : R -> R -> @Optimizer Params Grads OptState.
Variable get_data_loaders : Z -> @DataLoader Images Labels * @DataLoader Images Labels.
Variable PRNGKey : Z -> Rng.
Variable split : Rng -> Rng * Rng.
Variable load : string -> result RefParams.
Variable mlp_apply : RefParams -> Fwd.

Lemma appends_epoch_loop (train_loader test_loader : @DataLoader Images Labels)
    lg (fwd : Fwd) epochs :
  forall rng state,
    appends (epoch_loop grad_of split train_loader test_loader lg fwd epochs rng state).
Proof.
  induction epochs as [|epoch rest IH]; intros rng state; cbn [epoch_loop].
  - apply appends_ret.
  - destruct (split rng) as [rng' input_rng].
    apply appends_bind; [apply appends_deref|]. intros st.
    apply appends_bind; [apply appends_report|]. intros _.
    apply appends_bind; [apply appends_train_epoch|]. intros [state' tm].
    apply appends_bind; [apply appends_lift|]. intros test_batch.
    apply appends_bind; [apply appends_call_apply_model|]. intros [g test_metrics].
    apply appends_bind; [apply appends_lift|]. intros ?.
    apply appends_bind; [apply appends_lift|]. intros ?.
    apply appends_bind; [apply appends_lift|]. intros ?.
    apply appends_bind; [apply appends_lift|]. intros ?.
    apply appends_bind; [apply appends_emit|]. intros _. apply IH.
Qed.

(** X9: [train_epoch] and [train_and_evaluate] only add to the world.
    Whether they return or raise, every state object that existed is
    still there unchanged, and so is everything sent to the metrics sink
    and the log before; new objects and new events come after them. *)
Theorem trainer_only_appends :
  (forall state (loader : @DataLoader Images Labels) (rng : Rng) lg (fwd : Fwd),
     appends (train_epoch grad_of state loader rng lg fwd)) /\
  (forall config,
     appends (train_and_evaluate grad_of abstraction_init abstraction_apply sgd
                get_data_loaders PRNGKey split load mlp_apply config)).
Proof.
  split; [intros; apply appends_train_epoch|].
  intros config. unfold train_and_evaluate.
  destruct (get_data_loaders (batch_size config)) as [train_loader test_loader].
  destruct (split (PRNGKey 0)) as [rng init_rng].
  apply appends_bind.
  { destruct (debug config); [apply appends_raise|apply appends_ret]. }
  intros nc. apply appends_bind; [apply appends_alloc|]. intros state.
  apply appends_bind; [apply appends_lift|]. intros params.
  apply appends_epoch_loop.
Qed.

(** X8: the configurations in which no epoch is entered. In debug mode
    [train_and_evaluate] raises [NameError] at once, with the world
    untouched. Otherwise, with [num_epochs] zero or negative and the
    reference parameters loading, it returns the state it has just
    created, with step 0 and the abstraction model's [apply], and sends
    nothing to the sink or the log. *)
Theorem train_and_evaluate_without_epochs config (w : World) :
  (debug config = true ->
   train_and_evaluate grad_of abstraction_init abstraction_apply sgd
     get_data_loaders PRNGKey split load mlp_apply config w
   = (Err NameError, w)) /\
  (debug config = false ->
   (num_epochs config <= 0)%Z ->
   forall reference_params,
     load (model_path config) = Ok reference_params ->
     exists st,
       train_and_evaluate grad_of abstraction_init abstraction_apply sgd
         get_data_loaders PRNGKey split load mlp_apply config w
       = (Ok (length (heap w)), mkWorld (heap w ++ [st]) (sink w)) /\
       step st = 0%Z /\
       apply_fn st = abstraction_apply (abstract_dim config) 10).
Proof.
  split.
  - intros Hd. unfold train_and_evaluate. rewrite Hd. reflexivity.
  - intros Hd Hn reference_params Hload. unfold train_and_evaluate. rewrite Hd.
    destruct (get_data_loaders (batch_size config)) as [train_loader test_loader].
    destruct (split (PRNGKey 0)) as [rng init_rng].
    unfold py_range_from. replace (Z.to_nat (num_epochs config)) with 0%nat by lia.
    eexists. split.
    + unfold m_bind, m_ret, create_train_state, alloc, m_lift. rewrite Hload.
      cbn. reflexivity.
    + split; reflexivity.
Qed.

End WithModel.

(** *** At concrete inputs *)

Import Examples MoreExamples.

Lemma loss_fn_outcomes_witness :
  loss_fn mismatched_state zero_logits [] tt = Err AssertionError /\
  loss_fn no_layer_state narrow_logits [] tt = Err IndexError /\
  loss_fn three_layer_state narrow_logits [] tt = Err AssertionError /\
  loss_fn three_layer_state zero_logits [] tt = Err AttributeError.
Proof.
  destruct (loss_fn_outcomes mismatched_state zero_logits [] tt _ _ _ eq_refl)
    as (Hlen & _).
  destruct (loss_fn_outcomes no_layer_state narrow_logits [] tt _ _ _ eq_refl)
    as (_ & Hnone & _).
  destruct (loss_fn_outcomes three_layer_state narrow_logits [] tt _ _ _ eq_refl)
    as (_ & _ & Hshape & _).
  destruct (loss_fn_outcomes three_layer_state zero_logits [] tt _ _ _ eq_refl)
    as (_ & _ & Hpass & _).
  split; [apply Hlen; simpl; lia|].
  split; [apply Hnone; reflexivity|].
  split.
  - apply (Hshape (const_array 1 1 0) (const_array 1 1 0)); try reflexivity.
    right. left. discriminate.
  - apply (Hpass (const_array 1 1 0) (const_array 1 1 0)); reflexivity.
Defined.



Lemma train_and_evaluate_without_epochs_witness :
  (num_epochs no_epoch_config <= 0)%Z /\
  exists st,
    train_and_evaluate (RefParams := unit) (Rng := unit) unit_grad
      (fun _ _ _ => tt)
      (fun _ _ _ _ => (one_layer, one_layer, zero_logits))
      (fun _ _ => unit_optimizer)
      small_loaders
      (fun _ => tt) (fun _ => (tt, tt)) (fun _ => Ok tt)
      (fun _ => fixed_forward zero_logits)
      no_epoch_config (mkWorld [] [])
    = (Ok 0%nat, mkWorld [st] []) /\
    step st = 0%Z.
Proof.
  split; [simpl; lia|].
  destruct (train_and_evaluate_without_epochs (RefParams := unit) (Rng := unit)
              unit_grad (fun _ _ _ => tt)
              (fun _ _ _ _ => (one_layer, one_layer, zero_logits))
              (fun _ _ => unit_optimizer) small_loaders
              (fun _ => tt) (fun _ => (tt, tt)) (fun _ => Ok tt)
              (fun _ => fixed_forward zero_logits)
              no_epoch_config (mkWorld [] [])) as [_ H].
  destruct (H eq_refl ltac:(simpl; lia) tt eq_refl) as (st & Hrun & Hstep & _).
  exists st. split; assumption.
Defined.

End TrainerMore.

(** ** Stored components, further *)

Module StoredMore.
Import Stored StoredFacts Resolution.

Section WithDetectors.
Context {DetectorSpec Detector Weights HookedModel : Type}.
Variable disk : @Disk DetectorSpec Weights.
Variable build_concrete :
  DetectorSpec -> HookedModel -> option Path -> M (list LogRecord) Detector.
Variable restore : Detector -> Weights -> Detector.

(** X10: when the config under [p] loads, is not a pointer back to [p]
    and builds a detector, and the weights file [p/detector] exists,
    [build] returns that detector with the weights of the file restored,
    and logs nothing beyond what loading and the nested build logged: no
    warning. *)
Theorem stored_detector_restores_weights
    p attrs detector_cfg fuel model save_dir log detector log' weights :
  config_files disk !! path_join p "config.yaml" = Some attrs ->
  attrs !! "detector" = Some (CfgDetector detector_cfg) ->
  is_stored_at detector_cfg p = false ->
  build disk build_concrete restore fuel detector_cfg model save_dir
    (log ++ [LogDebug "detector" p]) = (Ok detector, log') ->
  weight_files disk !! path_join p "detector" = Some weights ->
  build disk build_concrete restore (S fuel) (StoredDetector p) model save_dir log
    = (Ok (restore detector weights), log').
Proof.
  intros Hf Hd Hns Hb Hw. simpl. unfold m_bind at 1.
  rewrite (load_config_found disk p "detector" as_detector_config _ _ _ _ Hf Hd eq_refl).
  rewrite Hns. unfold m_bind at 1. rewrite Hb.
  unfold m_bind, try_except, load_weights. rewrite Hw. reflexivity.
Qed.

(** X11: the guard of [StoredDetector.build] sees only a config that
    points at its own path. Two stored detectors under different paths
    that point at each other are not refused: from either of them [build]
    uses whatever depth of calls it is given and ends in
    [RecursionError]. *)
Theorem stored_detector_cycle_recurses pa pb attrs_a attrs_b model save_dir :
  pa <> pb ->
  config_files disk !! path_join pa "config.yaml" = Some attrs_a ->
  attrs_a !! "detector" = Some (CfgDetector (StoredDetector pb)) ->
  config_files disk !! path_join pb "config.yaml" = Some attrs_b ->
  attrs_b !! "detector" = Some (CfgDetector (StoredDetector pa)) ->
  forall fuel log,
    fst (build disk build_concrete restore fuel (StoredDetector pa) model save_dir log)
      = Err RecursionError /\
    fst (build disk build_concrete restore fuel (StoredDetector pb) model save_dir log)
      = Err RecursionError.
Proof.
  intros Hne Hfa Ha Hfb Hb fuel.
  induction fuel as [|fuel IH]; intros log; [split; reflexivity|].
  split; simpl; unfold m_bind at 1.
  - rewrite (load_config_found disk pa "detector" as_detector_config _ _ _ _ Hfa Ha eq_refl).
    simpl. rewrite bool_decide_eq_false_2 by congruence.
    unfold m_bind at 1. destruct (IH (log ++ [LogDebug "detector" pa])) as [_ H].
    destruct (build _ _ _ fuel (StoredDetector pb) _ _ _) as [[d|e] l]; simpl in *;
      [discriminate|congruence].
  - rewrite (load_config_found disk pb "detector" as_detector_config _ _ _ _ Hfb Hb eq_refl).
    simpl. rewrite bool_decide_eq_false_2 by congruence.
    unfold m_bind at 1. destruct (IH (log ++ [LogDebug "detector" pb])) as [H _].
    destruct (build _ _ _ fuel (StoredDetector pa) _ _ _) as [[d|e] l]; simpl in *;
      [discriminate|congruence].
Qed.

(** X12: what [StoredDetector.build] does when the config cannot be
    used. A missing [config.yaml] raises [FileNotFoundError]; a config
    without a [detector] entry, or with one that is not a detector
    config, raises [ValueError]. In each case the debug line of
    [load_config] is the only thing logged: no detector is built and no
    warning is written. *)
Theorem stored_detector_config_errors p fuel model save_dir log :
  let outcome :=
    build disk build_concrete restore (S fuel) (StoredDetector p) model save_dir log in
  (config_files disk !! path_join p "config.yaml" = None ->
   outcome = (Err FileNotFoundError, log ++ [LogDebug "detector" p])) /\
  (forall attrs,
     config_files disk !! path_join p "config.yaml" = Some attrs ->
     attrs !! "detector" = None ->
     outcome = (Err ValueError, log ++ [LogDebug "detector" p])) /\
  (forall attrs v,
     config_files disk !! path_join p "config.yaml" = Some attrs ->
     attrs !! "detector" = Some v ->
     as_detector_config v = None ->
     outcome = (Err ValueError, log ++ [LogDebug "detector" p])).
Proof.
  intros outcome. subst outcome. simpl. unfold m_bind at 1 3 5.
  unfold load_config, m_bind, logger_debug.
  split; [|split].
  - intros ->. reflexivity.
  - intros attrs -> ->. reflexivity.
  - intros attrs v -> -> ->. reflexivity.
Qed.

(** X13: a model that [build_model] returns is the model of an MLP or CNN
    config reached from the given config through stored models, fewer of
    them than the depth of calls allowed; each stored model on the way
    has logged one debug line, and no warning is logged. *)
Theorem build_model_returns_resolved_model fuel : forall cfg log m log',
  build_model disk fuel cfg log = (Ok m, log') ->
  exists n final,
    n < fuel /\ resolves disk n cfg final /\ direct_model final = Some m /\
    length log' = length log + n /\ count_warnings log' = count_warnings log.
Proof.
  induction fuel as [|fuel IH]; intros cfg log m log' H; [discriminate|].
  destruct cfg as [p|o h|o c d]; simpl in H.
  - unfold m_bind at 1 in H. unfold load_config, m_bind, logger_debug in H.
    destruct (config_files disk !! path_join p "config.yaml") as [attrs|] eqn:Hf;
      [|discriminate].
    destruct (attrs !! "model") as [v|] eqn:Hv; [|discriminate].
    destruct v as [c|c|]; simpl in H; try discriminate.
    apply IH in H as (n & final & Hn & Hres & Hm & Hlen & Hw).
    exists (S n), final. repeat split; try assumption; try lia.
    + econstructor; eassumption.
    + rewrite Hlen, length_app. simpl. lia.
    + rewrite Hw, count_warnings_app. unfold count_warnings at 2. simpl. lia.
  - injection H as <- <-. exists 0, (MLP o h). repeat split; try lia. constructor.
  - injection H as <- <-. exists 0, (CNN o c d). repeat split; try lia. constructor.
Qed.

(** X14: when stored models lead from a config to an MLP or CNN config,
    [build_model] returns the model of that config as soon as the depth
    of calls allowed exceeds their number. *)
Theorem build_model_reaches_resolved_model n cfg final :
  resolves disk n cfg final ->
  forall m fuel log,
    direct_model final = Some m -> n < fuel ->
    exists log', build_model disk fuel cfg log = (Ok m, log').
Proof.
  induction 1 as [o h|o c d|n p attrs cfg final Hf Hv Hres IH];
    intros m fuel log Hm Hlt; (destruct fuel as [|fuel]; [lia|]).
  - injection Hm as <-. simpl. eauto.
  - injection Hm as <-. simpl. eauto.
  - simpl. unfold m_bind at 1.
    rewrite (load_config_found disk p "model" as_model_config _ _ _ _ Hf Hv eq_refl).
    apply IH; [assumption|lia].
Qed.

End WithDetectors.

Import Examples MoreExamples.

Lemma stored_detector_restores_weights_witness :
  weight_files weights_disk !! path_join "run" "detector" = Some 5 /\
  build weights_disk fresh_detector add_weights 2 (StoredDetector "run") tt None []
    = (Ok 5, [LogDebug "detector" "run"]).
Proof.
  split; [reflexivity|].
  apply (stored_detector_restores_weights weights_disk fresh_detector add_weights
           "run" bare_attrs (ConcreteDetector tt) 1 tt None [] 0
           [LogDebug "detector" "run"] 5); reflexivity.
Defined.

Lemma stored_detector_cycle_recurses_witness :
  ("a" : Path) <> "b" /\
  fst (build cycle_disk fresh_detector add_weights 7 (StoredDetector "a") tt None [])
    = Err RecursionError.
Proof.
  assert (H : ("a" : Path) <> "b") by discriminate.
  split; [exact H|].
  apply (stored_detector_cycle_recurses cycle_disk fresh_detector add_weights
           "a" "b" (attrs_to "b") (attrs_to "a") tt None H
           eq_refl eq_refl eq_refl eq_refl 7 []).
Defined.

Lemma stored_detector_config_errors_witness :
  build bare_disk fresh_detector add_weights 1 (StoredDetector "elsewhere") tt None []
    = (Err FileNotFoundError, [LogDebug "detector" "elsewhere"]) /\
  build wrong_kind_disk fresh_detector add_weights 1 (StoredDetector "run") tt None []
    = (Err ValueError, [LogDebug "detector" "run"]).
Proof.
  split.
  - apply (stored_detector_config_errors bare_disk fresh_detector add_weights
             "elsewhere" 0 tt None []). reflexivity.
  - apply (stored_detector_config_errors wrong_kind_disk fresh_detector add_weights
             "run" 0 tt None [] : _ /\ _ /\ _) with (attrs := wrong_kind_attrs)
             (v := CfgModel (MLP 10 [256; 256]%Z)); reflexivity.
Defined.

Lemma build_model_returns_resolved_model_witness :
  build_model chain_disk 3 (StoredModel "outer") []
    = (Ok (mkModel (mlp 10 [256; 256]%Z)),
       [LogDebug "model" "outer"; LogDebug "model" "inner"]) /\
  exists n final,
    n < 3 /\ resolves chain_disk n (StoredModel "outer") final /\
    direct_model final = Some (mkModel (mlp 10 [256; 256]%Z)).
Proof.
  assert (H : build_model chain_disk 3 (StoredModel "outer") []
              = (Ok (mkModel (mlp 10 [256; 256]%Z)),
                 [LogDebug "model" "outer"; LogDebug "model" "inner"]))
    by reflexivity.
  split; [exact H|].
  destruct (build_model_returns_resolved_model chain_disk 3 _ _ _ _ H)
    as (n & final & Hn & Hres & Hm & _).
  eauto.
Defined.

Lemma build_model_reaches_resolved_model_witness :
  resolves chain_disk 2 (StoredModel "outer") (MLP 10 [256; 256]%Z) /\
  exists log',
    build_model chain_disk 3 (StoredModel "outer") []
    = (Ok (mkModel (mlp 10 [256; 256]%Z)), log').
Proof.
  assert (H : resolves chain_disk 2 (StoredModel "outer") (MLP 10 [256; 256]%Z)).
  { apply (resolves_stored chain_disk 1 "outer" outer_attrs (StoredModel "inner"));
      [reflexivity|reflexivity|].
    apply (resolves_stored chain_disk 0 "inner" inner_attrs (MLP 10 [256; 256]%Z));
      [reflexivity|reflexivity|].
    constructor. }
  split; [exact H|].
  apply (build_model_reaches_resolved_model chain_disk 2 _ _ H _ 3 [] eq_refl).
  lia.
Defined.

End StoredMore.

(** ** Backdoored datasets, further *)

Module DataMore.
Import Data DataFacts.

Section WithTransforms.
Context {Transform : Type}.

Abbreviation Lists := (list (list Transform)).
Abbreviation Config := (@DatasetConfig Transform).

(** X15: [__post_init__] changes nothing but the [no_augmentation] of
    the original. The node keeps its flag, transforms and backdoor. The
    original is untouched when the node's flag is not set (an unset flag
    is not passed down) and when it refuses the assignment (the
    [AttributeError] is swallowed). Otherwise the original is the old one
    with the flag set, and when it is itself a [BackdoorData] node its
    own original is left as it was: the flag goes one level down. *)
Theorem post_init_changes_only_the_flag base_post_init (self : Config)
    na ts original backdoor :
  run_base_post_init base_post_init self = BackdoorData na ts original backdoor ->
  exists original',
    post_init base_post_init self = BackdoorData na ts original' backdoor /\
    (na = false -> original' = original) /\
    (accepts_assignment original = false -> original' = original) /\
    (original' = original \/ set_no_augmentation original true = Ok original') /\
    (forall na2 ts2 o2 b2,
       original = BackdoorData na2 ts2 o2 b2 ->
       original' = BackdoorData (na || na2) ts2 o2 b2).
Proof.
  intros Hbase. unfold post_init. rewrite Hbase.
  destruct na.
  - destruct original as [ona assignable ots|ona ots o b]; simpl.
    + destruct assignable; eexists; (split; [reflexivity|]);
        repeat split; try discriminate; auto.
    + eexists. split; [reflexivity|]. repeat split; try discriminate; auto.
      intros na2 ts2 o2 b2 [= -> -> -> ->]. reflexivity.
  - exists original. split; [reflexivity|]. repeat split; auto.
Qed.

(** X16: with a base class that has no [__post_init__], running
    [__post_init__] a second time changes nothing. *)
Theorem post_init_idempotent (self : Config) :
  post_init None (post_init None self) = post_init None self.
Proof.
  unfold post_init, run_base_post_init.
  destruct self as [na a ts|na ts o b]; [reflexivity|].
  destruct na; [|reflexivity].
  destruct o as [ona assignable ots|ona ots o' b']; simpl.
  - destruct assignable; reflexivity.
  - reflexivity.
Qed.

(** The list that [BackdoorData.get_transforms] returns is the one it has
    just created. *)
Lemma get_transforms_fresh na ts (original : Config) backdoor (s s' : Lists) r :
  get_transforms (BackdoorData na ts original backdoor) s = (Ok r, s') ->
  r = length s.
Proof.
  cbn [get_transforms]. unfold m_bind, new_list, base_get_transforms, m_ret,
    extend_list, append_item.
  repeat match goal with
         | |- context [match ?x with _ => _ end] => destruct x; try discriminate
         end.
  intros [= <- _]. reflexivity.
Qed.

(** X17: the list that [get_transforms] of a [BackdoorData] node returns
    is a new object, not one a config holds. A caller may append to it:
    the lists that were in the store stay as they were, and a second call
    returns yet another new list with the same transforms as the first,
    without the appended element and with the backdoor still once. *)
Theorem get_transforms_result_is_fresh na ts (original : Config) backdoor
    (s : Lists) x :
  let self := BackdoorData na ts original backdoor in
  refs_valid s self ->
  exists s1 content s2 r' s3,
    get_transforms self s = (Ok (length s), s1) /\
    s1 !! length s = Some content /\
    append_item (length s) x s1 = (Ok tt, s2) /\
    s2 !! length s = Some (content ++ [x]) /\
    (forall i, i < length s -> s2 !! i = s !! i) /\
    get_transforms self s2 = (Ok r', s3) /\
    r' <> length s /\
    s3 !! r' = Some content.
Proof.
  intros self Hv.
  destruct (get_transforms_spec self s Hv) as (r & s1 & Hg & Hr & Hlen & Hag).
  pose proof (get_transforms_fresh _ _ _ _ _ _ _ Hg) as ->.
  set (content := transforms_of s self) in *.
  set (s2 := <[length s := content ++ [x]]> s1).
  assert (Hlt : length s < length s1) by (eapply lookup_lt_Some; eauto).
  assert (Hag2 : agree_below (length s) s s2).
  { intros i Hi. unfold s2. rewrite list_lookup_insert_ne by lia. apply Hag, Hi. }
  assert (Hlen2 : length s2 = length s1) by apply length_insert.
  assert (Hv2 : refs_valid s2 self) by (eapply refs_valid_mono; [exact Hv|lia]).
  destruct (get_transforms_spec self s2 Hv2) as (r' & s3 & Hg' & Hr' & _ & _).
  pose proof (get_transforms_fresh _ _ _ _ _ _ _ Hg') as Hfresh.
  exists s1, content, s2, r', s3. repeat split; auto.
  - unfold append_item. rewrite Hr. reflexivity.
  - unfold s2. apply list_lookup_insert_eq. lia.
  - lia.
  - rewrite Hr'. f_equal. apply transforms_of_agree; assumption.
Qed.

End WithTransforms.

Import Examples.

Lemma post_init_changes_only_the_flag_witness :
  run_base_post_init no_hook backdoored = BackdoorData true 1 plain_original 7 /\
  exists original',
    post_init no_hook backdoored = BackdoorData true 1 original' 7 /\
    (original' = plain_original \/
     set_no_augmentation plain_original true = Ok original').
Proof.
  split; [reflexivity|].
  destruct (post_init_changes_only_the_flag no_hook backdoored true 1
              plain_original 7 eq_refl) as (o' & Hp & _ & _ & Hor & _).
  exists o'. split; assumption.
Defined.

Lemma get_transforms_result_is_fresh_witness :
  refs_valid transform_store backdoored /\
  exists s1 s2 r' s3,
    get_transforms backdoored transform_store = (Ok 2, s1) /\
    s1 !! 2 = Some [1; 2; 3; 7] /\
    append_item 2 9 s1 = (Ok tt, s2) /\
    get_transforms backdoored s2 = (Ok r', s3) /\
    r' <> 2 /\
    s3 !! r' = Some [1; 2; 3; 7].
Proof.
  assert (Hv : refs_valid transform_store backdoored) by (simpl; lia).
  split; [exact Hv|].
  destruct (get_transforms_result_is_fresh true 1 plain_original 7
              transform_store 9 Hv)
    as (s1 & content & s2 & r' & s3 & Hg & Hc & Ha & _ & _ & Hg' & Hne & Hc').
  injection Hg as <-. injection Hc as <-.
  exists [[1; 2]; [3]; [1; 2; 3; 7]], s2, r', s3. repeat split; assumption.
Defined.

End DataMore.

(** ** Script configs *)

Module ScriptsFacts.
Import Stored Scripts.

(** X18: [ScriptConfig.path] can be read exactly when
    [ScriptConfig.output_enabled] holds: it then returns the path of the
    run, and otherwise it raises [ValueError]. *)
Theorem path_iff_output_enabled (get_config : GlobalConfig) :
  (output_enabled get_config = true <->
   exists p, path get_config = Ok p /\ global_path get_config = Some p) /\
  (output_enabled get_config = false <-> path get_config = Err ValueError).
Proof.
  unfold output_enabled, path.
  destruct (global_path get_config) as [p|]; split; split;
    try discriminate; try reflexivity; eauto.
  intros (p & H & _). discriminate.
Qed.

End ScriptsFacts.
